(** * Work schedule generator: a shallow embedding of [schedule_generator.py]

    The Python class [ScheduleGenerator] keeps a list of [Employee] records and
    a schedule, a dict from date strings to day dicts
    [{"day": label, "shifts": [Shift, ...]}].  [Shift] instances are mutable
    objects that the schedule and the template it was built from share, so
    they live in a store indexed by reference; the dicts and lists are never
    mutated in place by the class once built and are kept as values.

    Python is dynamically typed: [load_data] installs whatever [json.load]
    returned as the schedule.  The schedule is therefore a value of a small
    universe of Python values, and the operations on it follow Python's
    behaviour on every value of that universe, raising where Python raises.
    Employees, shifts and the arguments of the methods have the types of
    their annotations; what [load_data] makes of a document whose values
    have other types is followed as far as its [return True].

    What belongs to libraries is kept abstract: a file is the JSON value
    that [json.load] returns for it, text that is not JSON, or bytes that
    are not text at all ([json]); the CSV writer receives rows of cells
    ([csv]); dates follow the calendar of [datetime] and are printed as the
    C library prints them.  A character of a Rocq string stands for a
    character of a Python string. *)

From Stdlib Require Import ZArith List String Ascii Bool Lia Arith.
From Stdlib Require Import DecimalString.
Import ListNotations.
Open Scope string_scope.
Open Scope list_scope.
Open Scope Z_scope.
Set Warnings "-register-all".

(** ** Outcomes of a call

    The exceptions that leave a method.  [UnicodeDecodeError] is a subclass
    of [ValueError], as is [json.JSONDecodeError], which [load_data] catches
    and which therefore never leaves the class. *)
Inductive exn :=
| TypeError
| KeyError
| IndexError
| AttributeError
| ValueError
| OverflowError
| UnicodeDecodeError.

(** A call returns a value, raises an exception that nothing in the class
    catches, or - [Unmodelled] - goes on in Python with a value that lies
    outside the annotated types the model represents (an [Employee] whose
    [name] is a number, the text of a day label that is not a string).
    Nothing is claimed about an [Unmodelled] outcome. *)
Inductive result (A : Type) :=
| Ret (a : A)
| Raise (e : exn)
| Unmodelled.

Arguments Ret {A} a.
Arguments Raise {A} e.
Arguments Unmodelled {A}.

Definition bind {A B : Type} (c : result A) (k : A -> result B) : result B :=
  match c with
  | Ret a => k a
  | Raise e => Raise e
  | Unmodelled => Unmodelled
  end.

Notation "x <- c ;; k" := (bind c (fun x => k))
  (at level 61, c at next level, right associativity).

(** ** Data classes *)

Record Employee := {
  name : string;
  id : string;
  department : option string;
  max_hours_per_week : Z;
  available_days : list string
}.

Definition default_available_days : list string :=
  ["Monday"; "Tuesday"; "Wednesday"; "Thursday"; "Friday"].

Record Shift := {
  start_time : string;
  end_time : string;
  position : string;
  employee_id : option string
}.

(** A reference to a [Shift] instance, and the store of all instances. *)
Definition loc := nat.
Definition store := loc -> Shift.

Definition store_set (h : store) (r : loc) (s : Shift) : store :=
  fun r' => if Nat.eqb r' r then s else h r'.

(** ** Python values

    [PFloat] keeps the literal text of a non-integer JSON number; no operation
    of the class computes with one. *)
Inductive pyval :=
| PNone
| PBool (b : bool)
| PInt (z : Z)
| PFloat (text : string)
| PStr (s : string)
| PList (l : list pyval)
| PDict (d : list (string * pyval))
| PShift (r : loc).

(** Dicts keep insertion order; all keys here are strings. *)
Fixpoint dict_get {V : Type} (d : list (string * V)) (k : string) : option V :=
  match d with
  | [] => None
  | (k', v) :: rest => if String.eqb k' k then Some v else dict_get rest k
  end.

Definition dict_has {V : Type} (d : list (string * V)) (k : string) : bool :=
  match dict_get d k with Some _ => true | None => false end.

(** [d[k] = v]: an existing key keeps its place, a new one goes last. *)
Fixpoint dict_set {V : Type} (d : list (string * V)) (k : string) (v : V)
  : list (string * V) :=
  match d with
  | [] => [(k, v)]
  | (k', v') :: rest =>
      if String.eqb k' k then (k', v) :: rest else (k', v') :: dict_set rest k v
  end.

(** [d.get(k, default)] *)
Definition dict_get_default {V : Type} (d : list (string * V)) (k : string) (dflt : V) : V :=
  match dict_get d k with Some v => v | None => dflt end.

(** [v == s] for a string [s]: only an equal string is equal to it. *)
Definition eq_str (s : string) (v : pyval) : bool :=
  match v with
  | PStr t => String.eqb t s
  | _ => false
  end.

Definition is_substring (s t : string) : bool :=
  match String.index 0 s t with Some _ => true | None => false end.

(** [s in container] for a string [s]. *)
Definition py_contains_str (container : pyval) (s : string) : result bool :=
  match container with
  | PDict d => Ret (dict_has d s)
  | PList l => Ret (existsb (eq_str s) l)
  | PStr t => Ret (is_substring s t)
  | _ => Raise TypeError
  end.

(** [v[k]] for a string [k]. *)
Definition py_getitem_str (v : pyval) (k : string) : result pyval :=
  match v with
  | PDict d =>
      match dict_get d k with
      | Some x => Ret x
      | None => Raise KeyError
      end
  | _ => Raise TypeError
  end.

(** Indexing a sequence: a negative index counts from the end. *)
Definition seq_index {A : Type} (l : list A) (i : Z) : result A :=
  let n := Z.of_nat (List.length l) in
  let j := if i <? 0 then i + n else i in
  if (0 <=? j) && (j <? n) then
    match nth_error l (Z.to_nat j) with
    | Some x => Ret x
    | None => Raise IndexError
    end
  else Raise IndexError.

(** [v[i]] for an integer [i]. *)
Definition py_getitem_int (v : pyval) (i : Z) : result pyval :=
  match v with
  | PList l => seq_index l i
  | PStr t =>
      c <- seq_index (list_ascii_of_string t) i ;;
      Ret (PStr (String c EmptyString))
  | PDict _ => Raise KeyError
  | _ => Raise TypeError
  end.

(** [len(v)] *)
Definition py_len (v : pyval) : result Z :=
  match v with
  | PList l => Ret (Z.of_nat (List.length l))
  | PDict d => Ret (Z.of_nat (List.length d))
  | PStr t => Ret (Z.of_nat (String.length t))
  | _ => Raise TypeError
  end.

(** [v in days] for a list of strings [days]. *)
Definition in_strs (v : pyval) (days : list string) : bool :=
  existsb (fun d => eq_str d v) days.

(** [for x in v]: the elements of a list, the keys of a dict, the characters
    of a string. *)
Definition py_iter (v : pyval) : result (list pyval) :=
  match v with
  | PList l => Ret l
  | PDict d => Ret (map (fun kv => PStr (fst kv)) d)
  | PStr t => Ret (map (fun c => PStr (String c EmptyString)) (list_ascii_of_string t))
  | _ => Raise TypeError
  end.

(** [v.items()] *)
Definition py_items (v : pyval) : result (list (string * pyval)) :=
  match v with
  | PDict d => Ret d
  | _ => Raise AttributeError
  end.

(** Reading and writing the attributes of a [Shift]; no other value of the
    universe has them. *)
Definition shift_of (h : store) (v : pyval) : result Shift :=
  match v with
  | PShift r => Ret (h r)
  | _ => Raise AttributeError
  end.

Definition with_employee_id (s : Shift) (e : option string) : Shift :=
  {| start_time := start_time s; end_time := end_time s;
     position := position s; employee_id := e |}.

Definition set_employee_id (h : store) (v : pyval) (e : string) : result store :=
  match v with
  | PShift r => Ret (store_set h r (with_employee_id (h r) (Some e)))
  | _ => Raise AttributeError
  end.

(** ** The generator *)

Record state := {
  objects : store;
  employees : list Employee;
  schedule : pyval
}.

(** [ScheduleGenerator()] *)
Definition init (h : store) : state :=
  {| objects := h; employees := []; schedule := PDict [] |}.

(** A call ends with an outcome and a state; an exception leaves the state as
    it was when the call started, because every method below mutates last. *)
Definition run {A : Type} (st : state) (c : result (A * state)) : result A * state :=
  match c with
  | Ret (a, st') => (Ret a, st')
  | Raise e => (Raise e, st)
  | Unmodelled => (Unmodelled, st)
  end.

Definition add_employee (st : state) (employee : Employee) : state :=
  {| objects := objects st;
     employees := employees st ++ [employee];
     schedule := schedule st |}.

Definition remove_employee (st : state) (employee_id : string) : state :=
  {| objects := objects st;
     employees := filter (fun emp => negb (String.eqb (id emp) employee_id)) (employees st);
     schedule := schedule st |}.

Fixpoint first_with_id (emps : list Employee) (employee_id : string) : option Employee :=
  match emps with
  | [] => None
  | emp :: rest =>
      if String.eqb (id emp) employee_id then Some emp
      else first_with_id rest employee_id
  end.

Definition get_employee (st : state) (employee_id : string) : option Employee :=
  first_with_id (employees st) employee_id.

Definition assign_employee_to_shift
  (st : state) (date : string) (shift_index : Z) (employee_id : string)
  : result bool * state :=
  run st (
    has_date <- py_contains_str (schedule st) date ;;
    if has_date then
      day_data <- py_getitem_str (schedule st) date ;;
      shifts <- py_getitem_str day_data "shifts" ;;
      n <- py_len shifts ;;
      if shift_index <? n then
        match get_employee st employee_id with
        | Some employee =>
            (* [self.schedule[date]] is read again; it is still [day_data] *)
            day <- py_getitem_str day_data "day" ;;
            if in_strs day (available_days employee) then
              shift <- py_getitem_int shifts shift_index ;;
              h <- set_employee_id (objects st) shift employee_id ;;
              Ret (true, {| objects := h;
                            employees := employees st;
                            schedule := schedule st |})
            else Ret (false, st)
        | None => Ret (false, st)
        end
      else Ret (false, st)
    else Ret (false, st)).

(** ** Stores that follow the annotations

    [Dict[str, ...]] of day dicts whose ["shifts"] is a list of [Shift]
    instances: what [create_weekly_schedule] builds. *)
Record DayEntry := {
  day : string;
  shifts : list loc
}.

Definition day_dict (label : string) (refs : list loc) : pyval :=
  PDict [("day", PStr label); ("shifts", PList (map PShift refs))].

Definition schedule_value (days : list (string * DayEntry)) : pyval :=
  PDict (map (fun kv => (fst kv, day_dict (day (snd kv)) (shifts (snd kv)))) days).

Definition typed_state (h : store) (emps : list Employee) (days : list (string * DayEntry))
  : state :=
  {| objects := h; employees := emps; schedule := schedule_value days |}.

(** The shift a (possibly negative) index addresses in a list of [n] shifts. *)
Definition addressed (refs : list loc) (i : Z) : option loc :=
  let n := Z.of_nat (List.length refs) in
  let j := if i <? 0 then i + n else i in
  if (0 <=? j) && (j <? n) then nth_error refs (Z.to_nat j) else None.

(** The four preconditions of an assignment, as the specification lists them. *)
Definition assignable (emps : list Employee) (days : list (string * DayEntry))
  (date : string) (shift_index : Z) (employee_id : string) : bool :=
  match dict_get days date with
  | Some e =>
      (0 <=? shift_index) && (shift_index <? Z.of_nat (List.length (shifts e))) &&
      match first_with_id emps employee_id with
      | Some emp => existsb (String.eqb (day e)) (available_days emp)
      | None => false
      end
  | None => false
  end.

(** ** Dates

    [datetime.strptime(s, "%Y-%m-%d")], [d + timedelta(days=i)] and
    [d.strftime("%Y-%m-%d")] on the proleptic Gregorian calendar of
    [datetime], whose years run from 1 to 9999.  The time of day stays
    midnight and is left out. *)
Record date := {
  year : Z;
  month : Z;
  mday : Z
}.

Definition is_leap (y : Z) : bool :=
  (y mod 4 =? 0) && (negb (y mod 100 =? 0) || (y mod 400 =? 0)).

Definition days_in_month (y m : Z) : Z :=
  if m =? 2 then (if is_leap y then 29 else 28)
  else if (m =? 4) || (m =? 6) || (m =? 9) || (m =? 11) then 30
  else 31.

Definition MAXYEAR : Z := 9999.

Definition valid_date (d : date) : bool :=
  (1 <=? year d) && (year d <=? MAXYEAR) &&
  (1 <=? month d) && (month d <=? 12) &&
  (1 <=? mday d) && (mday d <=? days_in_month (year d) (month d)).

(** The calendar day after [d]. *)
Definition tomorrow (d : date) : date :=
  if mday d <? days_in_month (year d) (month d) then
    {| year := year d; month := month d; mday := mday d + 1 |}
  else if month d <? 12 then
    {| year := year d; month := month d + 1; mday := 1 |}
  else
    {| year := year d + 1; month := 1; mday := 1 |}.

(** [d + timedelta(days=1)]: a date past the last day of year 9999 is an
    [OverflowError]. *)
Definition next_day (d : date) : result date :=
  let d' := tomorrow d in
  if year d' <=? MAXYEAR then Ret d' else Raise OverflowError.

(** [d + timedelta(days=n)] *)
Fixpoint add_days (d : date) (n : nat) : result date :=
  match n with
  | O => Ret d
  | S k => d' <- add_days d k ;; next_day d'
  end.

Definition digit (z : Z) : ascii := ascii_of_nat (48 + Z.to_nat z).

Definition two_digits (z : Z) : string :=
  String (digit (z / 10)) (String (digit (z mod 10)) EmptyString).

Definition four_digits (z : Z) : string :=
  String (digit (z / 1000)) (String (digit (z / 100 mod 10)) (two_digits (z mod 100))).

(** [%Y] as [strftime] prints it: CPython hands the format to the C
    library, and glibc writes the year without padding, so year 999 is
    printed [999] and year 5 is printed [5].  From year 1000 on the text
    has four digits. *)
Definition year_digits (y : Z) : string :=
  if (y <? 10)%Z then String (digit y) EmptyString
  else if (y <? 100)%Z then two_digits y
  else if (y <? 1000)%Z then String (digit (y / 100)) (two_digits (y mod 100))
  else four_digits y.

(** [d.strftime("%Y-%m-%d")]: [%m] and [%d] are two digits each. *)
Definition strftime (d : date) : string :=
  String.append (year_digits (year d))
    (String.append "-" (String.append (two_digits (month d))
      (String.append "-" (two_digits (mday d))))).

Definition digit_value (c : ascii) : option Z :=
  let n := nat_of_ascii c in
  if (48 <=? n)%nat && (n <=? 57)%nat then Some (Z.of_nat (n - 48)) else None.

(** [%Y]: exactly four digits. *)
Definition parse_year (s : list ascii) : option (Z * list ascii) :=
  match s with
  | a :: b :: c :: d :: rest =>
      match digit_value a, digit_value b, digit_value c, digit_value d with
      | Some x, Some y, Some z, Some w => Some (1000 * x + 100 * y + 10 * z + w, rest)
      | _, _, _, _ => None
      end
  | _ => None
  end.

(** One or two digits of a month ([1[0-2]|0[1-9]|[1-9]]) or of a day
    ([3[01]|[12]\d|0[1-9]|[1-9]]); [two x y] tells whether the digits [x y]
    make a two-digit form. *)
Definition parse_1or2 (two : Z -> Z -> bool) (s : list ascii) : option (Z * list ascii) :=
  match s with
  | a :: rest =>
      match digit_value a with
      | Some x =>
          let one := if 1 <=? x then Some (x, rest) else None in
          match rest with
          | b :: rest' =>
              match digit_value b with
              | Some y => if two x y then Some (10 * x + y, rest') else one
              | None => one
              end
          | [] => one
          end
      | None => None
      end
  | [] => None
  end.

Definition month_two (x y : Z) : bool :=
  ((x =? 1) && (y <=? 2)) || ((x =? 0) && (1 <=? y)).

Definition day_two (x y : Z) : bool :=
  ((x =? 3) && (y <=? 1)) || ((1 <=? x) && (x <=? 2)) || ((x =? 0) && (1 <=? y)).

Definition parse_day (s : list ascii) : option (Z * list ascii) :=
  match s with
  | " "%char :: b :: rest =>
      match digit_value b with
      | Some y => if 1 <=? y then Some (y, rest) else None
      | None => None
      end
  | _ => parse_1or2 day_two s
  end.

Definition expect_dash (s : list ascii) : option (list ascii) :=
  match s with
  | "-"%char :: rest => Some rest
  | _ => None
  end.

Definition parse_ymd (s : list ascii) : option date :=
  match parse_year s with
  | Some (y, s1) =>
      match expect_dash s1 with
      | Some s2 =>
          match parse_1or2 month_two s2 with
          | Some (m, s3) =>
              match expect_dash s3 with
              | Some s4 =>
                  match parse_day s4 with
                  | Some (d, []) => Some {| year := y; month := m; mday := d |}
                  | _ => None
                  end
              | None => None
              end
          | None => None
          end
      | None => None
      end
  | None => None
  end.

(** [datetime.strptime(s, "%Y-%m-%d")]: text that does not match the format,
    or names no date of the calendar, is a [ValueError]. *)
Definition strptime (s : string) : result date :=
  match parse_ymd (list_ascii_of_string s) with
  | Some d => if valid_date d then Ret d else Raise ValueError
  | None => Raise ValueError
  end.

(** ** Building the week *)

Definition days : list string :=
  ["Monday"; "Tuesday"; "Wednesday"; "Thursday"; "Friday"; "Saturday"; "Sunday"].

Definition enumerate {A : Type} (l : list A) : list (nat * A) :=
  combine (seq 0 (List.length l)) l.

(** [shifts_per_day]: a dict from day names to lists of [Shift] instances. *)
Definition template := list (string * list loc).

(** The body of the loop over [enumerate(days)], [sched] being the dict built
    so far. *)
Fixpoint fill_week (start : date) (shifts_per_day : template)
  (todo : list (nat * string)) (sched : list (string * pyval))
  : result (list (string * pyval)) :=
  match todo with
  | [] => Ret sched
  | (i, label) :: rest =>
      current_date <- add_days start i ;;
      let date_str := strftime current_date in
      fill_week start shifts_per_day rest
        (dict_set sched date_str
           (day_dict label (dict_get_default shifts_per_day label [])))
  end.

Definition create_weekly_schedule
  (st : state) (start_date : string) (shifts_per_day : template)
  : result pyval * state :=
  run st (
    start <- strptime start_date ;;
    sched <- fill_week start shifts_per_day (enumerate days) [] ;;
    Ret (PDict sched,
         {| objects := objects st;
            employees := employees st;
            schedule := PDict sched |})).

(** The date [n] days after [d], and the week that starts at [d] as the
    specification describes it. *)
Fixpoint nth_day (d : date) (n : nat) : date :=
  match n with
  | O => d
  | S k => tomorrow (nth_day d k)
  end.

Definition week_from (d : date) (shifts_per_day : template) : list (string * DayEntry) :=
  map (fun il =>
         (strftime (nth_day d (fst il)),
          {| day := snd il;
             shifts := match dict_get shifts_per_day (snd il) with
                       | Some refs => refs
                       | None => []
                       end |}))
      (enumerate days).

(** All seven dates from [d] on are dates of the calendar: [d] is no later
    than 9999-12-25. *)
Definition week_fits (d : date) : bool :=
  (year d <? MAXYEAR) || (month d <? 12) || (mday d + 6 <=? 31).

(** ** Rendering

    The rows handed to [csv.writer], the text of the HTML page and the lines
    printed on the console. *)

(** The double quote character. *)
Definition dq : string := String (ascii_of_nat 34) EmptyString.

Definition concat_all (parts : list string) : string :=
  fold_right String.append EmptyString parts.

(** [str(v)] of a value placed in a cell or a format string: a string is its
    own text; the text of other values is not modelled. *)
Definition as_text (v : pyval) : result string :=
  match v with
  | PStr s => Ret s
  | _ => Unmodelled
  end.

(** [for x in l: body], [out] being what has been written so far; the loop
    stops at the first iteration that does not end normally. *)
Fixpoint for_each {A O : Type} (l : list A) (body : A -> O -> result unit * O) (out : O)
  : result unit * O :=
  match l with
  | [] => (Ret tt, out)
  | x :: rest =>
      match body x out with
      | (Ret _, out') => for_each rest body out'
      | (r, out') => (r, out')
      end
  end.

(** Evaluate [c], then go on with [k]; an exception ends the call with what
    has been written so far. *)
Definition then_ {A O : Type} (c : result A) (out : O) (k : A -> result unit * O)
  : result unit * O :=
  match c with
  | Ret a => k a
  | Raise e => (Raise e, out)
  | Unmodelled => (Unmodelled, out)
  end.

(** The employee column: [initial] unless [shift.employee_id] is truthy (set,
    and not the empty string); then the name of the employee with that id, or
    the id itself when there is none. *)
Definition employee_name_of (st : state) (initial : string) (s : Shift) : string :=
  match employee_id s with
  | Some eid =>
      if String.eqb eid EmptyString then initial
      else match get_employee st eid with
           | Some emp => name emp
           | None => eid
           end
  | None => initial
  end.

Definition csv_header : list string :=
  ["Date"; "Day"; "Start Time"; "End Time"; "Position"; "Employee"].

Definition csv_row (date day_text : string) (s : Shift) (employee_name : string)
  : list string :=
  [date; day_text; start_time s; end_time s; position s; employee_name].

Definition export_to_csv (st : state) : result unit * list (list string) :=
  let out := [csv_header] in
  then_ (py_items (schedule st)) out (fun items =>
    for_each items (fun kv out =>
      let date := fst kv in
      let day_data := snd kv in
      then_ (v <- py_getitem_str day_data "shifts" ;; py_iter v) out (fun l =>
        for_each l (fun shift out =>
          then_ (s <- shift_of (objects st) shift ;;
                 day_text <- (v <- py_getitem_str day_data "day" ;; as_text v) ;;
                 Ret (csv_row date day_text s (employee_name_of st EmptyString s)))
                out (fun row => (Ret tt, out ++ [row])))
          out))
      out).

Definition html_head : string :=
  concat_all ["
        <!DOCTYPE html>
        <html>
        <head>
            <title>Work Schedule</title>
            <style>
                table { border-collapse: collapse; width: 100%; }
                th, td { border: 1px solid #ddd; padding: 8px; text-align: left; }
                th { background-color: #f2f2f2; }
                .date { font-weight: bold; }
                .unassigned { background-color: #ffe6e6; }
            </style>
        </head>
        <body>
            <h1>Work Schedule</h1>
            <table>
                <tr>
                    <th>Date</th>
                    <th>Day</th>
                    <th>Time</th>
                    <th>Position</th>
                    <th>Employee</th>
                </tr>
        "].

Definition html_tail : string :=
  concat_all ["
            </table>
        </body>
        </html>
        "].

Definition html_row (css_class date day_text : string) (s : Shift) (employee_name : string)
  : string :=
  concat_all
    ["
                <tr class=";
     dq;
     css_class;
     dq;
     ">
                    <td class=";
     dq;
     "date";
     dq;
     ">";
     date;
     "</td>
                    <td>";
     day_text;
     "</td>
                    <td>";
     start_time s;
     " - ";
     end_time s;
     "</td>
                    <td>";
     position s;
     "</td>
                    <td>";
     employee_name;
     "</td>
                </tr>
                "].


Definition export_to_html (st : state) : result string :=
  let html_content := html_head in
  match
    then_ (py_items (schedule st)) html_content (fun items =>
      for_each items (fun kv html_content =>
        let date := fst kv in
        let day_data := snd kv in
        then_ (v <- py_getitem_str day_data "shifts" ;; py_iter v) html_content (fun l =>
          for_each l (fun shift html_content =>
            then_ (s <- shift_of (objects st) shift ;;
                   let css_class :=
                     match employee_id s with
                     | Some eid => if String.eqb eid EmptyString then "unassigned" else EmptyString
                     | None => "unassigned"
                     end in
                   day_text <- (v <- py_getitem_str day_data "day" ;; as_text v) ;;
                   Ret (html_row css_class date day_text s (employee_name_of st "UNASSIGNED" s)))
                  html_content (fun r => (Ret tt, String.append html_content r)))
            html_content))
        html_content)
  with
  | (Ret _, html_content) => Ret (String.append html_content html_tail)
  | (Raise e, _) => Raise e
  | (Unmodelled, _) => Unmodelled
  end.

(** [bool(v)] *)
Definition truthy (v : pyval) : result bool :=
  match v with
  | PNone => Ret false
  | PBool b => Ret b
  | PInt z => Ret (negb (z =? 0))
  | PFloat _ => Unmodelled
  | PStr s => Ret (negb (String.eqb s EmptyString))
  | PList l => Ret (negb (Nat.eqb (List.length l) 0))
  | PDict d => Ret (negb (Nat.eqb (List.length d) 0))
  | PShift _ => Ret true
  end.

Definition nl : string := String (ascii_of_nat 10) EmptyString.

Definition banner : string := concat_all [nl; "=== WORK SCHEDULE ==="; nl].

Definition rule : string := string_of_list_ascii (repeat "-"%char 50).

Definition day_line (date day_text : string) : string :=
  concat_all [date; " ("; day_text; ")"].

Definition shift_line (s : Shift) (employee_name : string) : string :=
  concat_all ["  "; start_time s; "-"; end_time s; " | "; position s; " | "; employee_name].

(** Each element of the output is the argument of one call of [print]. *)
Definition print_schedule (st : state) : result unit * list string :=
  let out := [banner] in
  then_ (py_items (schedule st)) out (fun items =>
    for_each items (fun kv out =>
      let date := fst kv in
      let day_data := snd kv in
      then_ (v <- py_getitem_str day_data "day" ;; as_text v) out (fun day_text =>
        let out := out ++ [day_line date day_text; rule] in
        then_ (v <- py_getitem_str day_data "shifts" ;;
               b <- truthy v ;;
               Ret (v, b)) out (fun vb =>
          match
            if negb (snd vb) then (Ret tt, out ++ ["  No shifts scheduled"])
            else
              then_ (py_iter (fst vb)) out (fun l =>
                for_each l (fun shift out =>
                  then_ (shift_of (objects st) shift) out (fun s =>
                    (Ret tt, out ++ [shift_line s (employee_name_of st "UNASSIGNED" s)])))
                  out)
          with
          | (Ret _, out) => (Ret tt, out ++ [EmptyString])
          | (r, out) => (r, out)
          end)))
      out).

(** ** Persistence

    [json.dump] and [json.load] are the library's.  A file that [json.load]
    can read is kept as the document it returns, [JsonText]: an object of
    that document has each member name once, since of a name that the text
    repeats [json.load] keeps the last value ([unique_names] below).  A file
    whose text is not JSON is [NotJson]: [json.load] raises
    [json.JSONDecodeError] on it.  A file whose bytes are not UTF-8 is
    [NotUtf8]: reading it raises [UnicodeDecodeError] before any parsing.
    The file system maps a name to the file of that name, if there is one. *)
Inductive json :=
| JNull
| JBool (b : bool)
| JInt (z : Z)
| JFloat (text : string)
| JStr (s : string)
| JArray (l : list json)
| JObject (d : list (string * json)).

Inductive file :=
| JsonText (j : json)
| NotJson
| NotUtf8.

Definition filesystem := string -> option file.

Definition write_file (fs : filesystem) (filename : string) (f : file) : filesystem :=
  fun n => if String.eqb n filename then Some f else fs n.

(** What [json.load] returns for a document. *)
Fixpoint of_json (j : json) : pyval :=
  match j with
  | JNull => PNone
  | JBool b => PBool b
  | JInt z => PInt z
  | JFloat t => PFloat t
  | JStr s => PStr s
  | JArray l => PList (map of_json l)
  | JObject d => PDict (map (fun kv : string * json => let (k, v) := kv in (k, of_json v)) d)
  end.

(** No member name is set twice on the way: the dict has the members in the
    order of the document, each name once. *)
Fixpoint distinct (names : list string) : bool :=
  match names with
  | [] => true
  | k :: rest => negb (existsb (String.eqb k) rest) && distinct rest
  end.

(** The documents [json.load] returns: no object, at any depth, has a member
    name twice. *)
Fixpoint unique_names (j : json) : bool :=
  match j with
  | JArray l => forallb unique_names l
  | JObject d =>
      distinct (map fst d) &&
      forallb (fun kv : string * json => let (_, v) := kv in unique_names v) d
  | _ => true
  end.

(** What [json.dump] writes for a value; an instance of a class is not
    serializable. *)
Fixpoint to_json (v : pyval) : result json :=
  match v with
  | PNone => Ret JNull
  | PBool b => Ret (JBool b)
  | PInt z => Ret (JInt z)
  | PFloat t => Ret (JFloat t)
  | PStr s => Ret (JStr s)
  | PList l =>
      l' <- (fix each (l : list pyval) : result (list json) :=
               match l with
               | [] => Ret []
               | x :: rest => x' <- to_json x ;; rest' <- each rest ;; Ret (x' :: rest')
               end) l ;;
      Ret (JArray l')
  | PDict d =>
      d' <- (fix each (d : list (string * pyval)) : result (list (string * json)) :=
               match d with
               | [] => Ret []
               | (k, x) :: rest => x' <- to_json x ;; rest' <- each rest ;; Ret ((k, x') :: rest')
               end) d ;;
      Ret (JObject d')
  | PShift _ => Raise TypeError
  end.

Definition json_of_option (o : option string) : json :=
  match o with
  | Some s => JStr s
  | None => JNull
  end.

(** [dataclasses.asdict(emp)], already as the JSON it is written as. *)
Definition asdict (emp : Employee) : json :=
  JObject [("name", JStr (name emp));
           ("id", JStr (id emp));
           ("department", json_of_option (department emp));
           ("max_hours_per_week", JInt (max_hours_per_week emp));
           ("available_days", JArray (map JStr (available_days emp)))].

(** [open(filename, 'w')] empties the file and [json.dump] writes as it goes:
    when it raises, the file is left with the start of a document. *)
Definition save_data (fs : filesystem) (st : state) (filename : string)
  : result unit * filesystem :=
  match to_json (schedule st) with
  | Ret sched =>
      let data := JObject [("employees", JArray (map asdict (employees st)));
                           ("schedule", sched)] in
      (Ret tt, write_file fs filename (JsonText data))
  | Raise e => (Raise e, write_file fs filename NotJson)
  | Unmodelled => (Unmodelled, write_file fs filename NotJson)
  end.

(** [v.get(k, default)] *)
Definition py_get (v : pyval) (k : string) (dflt : pyval) : result pyval :=
  match v with
  | PDict d => Ret (dict_get_default d k dflt)
  | _ => Raise AttributeError
  end.

Definition field_names : list string :=
  ["name"; "id"; "department"; "max_hours_per_week"; "available_days"].

Definition as_str (v : pyval) : result string :=
  match v with
  | PStr s => Ret s
  | _ => Unmodelled
  end.

Definition as_optional_str (v : pyval) : result (option string) :=
  match v with
  | PNone => Ret None
  | PStr s => Ret (Some s)
  | _ => Unmodelled
  end.

Definition as_int (v : pyval) : result Z :=
  match v with
  | PInt z => Ret z
  | _ => Unmodelled
  end.

Fixpoint as_strs (l : list pyval) : result (list string) :=
  match l with
  | [] => Ret []
  | x :: rest => s <- as_str x ;; rest' <- as_strs rest ;; Ret (s :: rest')
  end.

(** The values of [available_days] at its annotated type. *)
Definition as_days (v : pyval) : result (list string) :=
  match v with
  | PList l => as_strs l
  | _ => Unmodelled
  end.

(** An [Employee] instance as Python holds it: the dataclass does not check
    the values against the annotations, so an attribute is whatever value the
    keyword argument had. *)
Record EmployeeObject := {
  name_value : pyval;
  id_value : pyval;
  department_value : pyval;
  max_hours_per_week_value : pyval;
  available_days_value : pyval
}.

(** [Employee] called with the keyword arguments [emp_data]: a [TypeError]
    unless [emp_data] is a mapping whose keys are field names, [name] and [id]
    among them.  A field left out takes its default, and [__post_init__]
    replaces an [available_days] of [None] by Monday to Friday. *)
Definition Employee_new (emp_data : pyval) : result EmployeeObject :=
  match emp_data with
  | PDict kw =>
      if forallb (fun kv => existsb (String.eqb (fst kv)) field_names) kw then
        match dict_get kw "name", dict_get kw "id" with
        | Some n, Some i =>
            Ret {| name_value := n;
                   id_value := i;
                   department_value := dict_get_default kw "department" PNone;
                   max_hours_per_week_value :=
                     dict_get_default kw "max_hours_per_week" (PInt 40);
                   available_days_value :=
                     match dict_get_default kw "available_days" PNone with
                     | PNone => PList (map PStr default_available_days)
                     | v => v
                     end |}
        | _, _ => Raise TypeError
        end
      else Raise TypeError
  | _ => Raise TypeError
  end.

(** The instance as an [Employee] of the annotated types; with a value of
    another type it is [Unmodelled]. *)
Definition Employee_typed (o : EmployeeObject) : result Employee :=
  n <- as_str (name_value o) ;;
  i <- as_str (id_value o) ;;
  dept <- as_optional_str (department_value o) ;;
  hours <- as_int (max_hours_per_week_value o) ;;
  avail <- as_days (available_days_value o) ;;
  Ret {| name := n; id := i; department := dept;
         max_hours_per_week := hours; available_days := avail |}.

(** [Employee] called with [emp_data], at the annotated types. *)
Definition Employee_of (emp_data : pyval) : result Employee :=
  o <- Employee_new emp_data ;; Employee_typed o.

(** The list comprehension of [load_data], which builds one instance after
    the other and stops at the first [TypeError]. *)
Fixpoint Employees_new (l : list pyval) : result (list EmployeeObject) :=
  match l with
  | [] => Ret []
  | x :: rest => o <- Employee_new x ;; rest' <- Employees_new rest ;; Ret (o :: rest')
  end.

Fixpoint Employees_typed (l : list EmployeeObject) : result (list Employee) :=
  match l with
  | [] => Ret []
  | o :: rest => e <- Employee_typed o ;; rest' <- Employees_typed rest ;; Ret (e :: rest')
  end.

Definition not_found_message (filename : string) : string :=
  concat_all ["File "; filename; " not found"].

Definition invalid_json_message (filename : string) : string :=
  concat_all ["Invalid JSON in "; filename].

(** What [load_data] does before it touches the generator, and the lines it
    prints: [Some] of the instances and of the schedule that it is about to
    assign and to answer [True] for, or [None] where it has printed a message
    and answers [False].  The two handlers catch [FileNotFoundError] and
    [json.JSONDecodeError] and nothing else. *)
Definition load_data_reads (fs : filesystem) (filename : string)
  : result (option (list EmployeeObject * pyval)) * list string :=
  match fs filename with
  | None => (Ret None, [not_found_message filename])
  | Some NotJson => (Ret None, [invalid_json_message filename])
  | Some NotUtf8 => (Raise UnicodeDecodeError, [])
  | Some (JsonText j) =>
      let data := of_json j in
      (v <- py_get data "employees" (PList []) ;;
       l <- py_iter v ;;
       objs <- Employees_new l ;;
       sched <- py_get data "schedule" (PDict []) ;;
       Ret (Some (objs, sched)),
       [])
  end.

(** The outcome, the state afterwards and the lines printed.  The roster is
    kept at the annotated types: where [load_data] answers [True] with an
    instance that has a value of another type, the outcome is [Unmodelled]. *)
Definition load_data (fs : filesystem) (st : state) (filename : string)
  : result bool * state * list string :=
  match load_data_reads fs filename with
  | (Ret (Some (objs, sched)), out) =>
      match Employees_typed objs with
      | Ret emps =>
          (Ret true,
           {| objects := objects st; employees := emps; schedule := sched |},
           out)
      | Raise e => (Raise e, st, out)
      | Unmodelled => (Unmodelled, st, out)
      end
  | (Ret None, out) => (Ret false, st, out)
  | (Raise e, out) => (Raise e, st, out)
  | (Unmodelled, out) => (Unmodelled, st, out)
  end.

(** ** Measures used in the proofs about dates

    [room d k]: the [k] days after [d] all exist.  [date_ord] orders the
    dates of the calendar. *)
Definition room (d : date) (k : Z) : Prop :=
  year d < MAXYEAR \/ month d < 12 \/ mday d + k <= 31.

Definition date_ord (d : date) : Z :=
  (year d * 13 + month d) * 32 + mday d.

(** ** What the renderers are to write, in the specification's words

    The employee column of a shift: the marker when no id is set, the name of
    the employee with that id when the roster has one, the bare id
    otherwise. *)
Definition employee_cell (emps : list Employee) (marker : string) (assigned : option string)
  : string :=
  match assigned with
  | None => marker
  | Some eid =>
      match first_with_id emps eid with
      | Some emp => name emp
      | None => eid
      end
  end.

(** No shift of the schedule carries the empty string as its employee id. *)
Definition ids_not_empty (h : store) (ds : list (string * DayEntry)) : bool :=
  forallb (fun kv =>
    forallb (fun r =>
      match employee_id (h r) with
      | Some eid => negb (String.eqb eid EmptyString)
      | None => true
      end) (shifts (snd kv))) ds.

(** One row per shift, days in the order of the dict, shifts in the order of
    the day's list. *)
Definition csv_rows (h : store) (emps : list Employee) (marker : string)
  (ds : list (string * DayEntry)) : list (list string) :=
  flat_map (fun kv =>
    map (fun r => csv_row (fst kv) (day (snd kv)) (h r)
                    (employee_cell emps marker (employee_id (h r))))
        (shifts (snd kv))) ds.

Definition html_rows (h : store) (emps : list Employee) (marker : string)
  (ds : list (string * DayEntry)) : string :=
  concat_all (map (fun kv =>
    concat_all (map (fun r =>
      html_row match employee_id (h r) with
               | Some _ => EmptyString
               | None => "unassigned"
               end
               (fst kv) (day (snd kv)) (h r)
               (employee_cell emps marker (employee_id (h r))))
      (shifts (snd kv)))) ds).

Definition text_lines (h : store) (emps : list Employee) (marker : string)
  (ds : list (string * DayEntry)) : list string :=
  flat_map (fun kv =>
    [day_line (fst kv) (day (snd kv)); rule] ++
    match shifts (snd kv) with
    | [] => ["  No shifts scheduled"]
    | refs => map (fun r => shift_line (h r) (employee_cell emps marker (employee_id (h r)))) refs
    end ++ [EmptyString]) ds.

(** ** Employee records of a document

    An employee record, as [load_data] accepts it: a JSON object that has the
    members [name] and [id] and no member that is not a field of [Employee].
    Nothing is asked of the values. *)
Definition has_member (kw : list (string * json)) (k : string) : bool :=
  match dict_get kw k with
  | Some _ => true
  | None => false
  end.

Definition employee_record (j : json) : bool :=
  match j with
  | JObject kw =>
      forallb (fun k => existsb (String.eqb k) field_names) (map fst kw) &&
      has_member kw "name" && has_member kw "id"
  | _ => false
  end.

(** An employee record whose values have the types of the annotations: the
    name and the id are strings, the department is a string or [null], the
    hours are an integer and the available days are [null] or a list of
    strings. *)
Definition is_text (j : json) : bool :=
  match j with
  | JStr _ => true
  | _ => false
  end.

Definition member_is (kw : list (string * json)) (k : string) (p : json -> bool) : bool :=
  match dict_get kw k with
  | Some v => p v
  | None => true
  end.

Definition typed_record (j : json) : bool :=
  employee_record j &&
  match j with
  | JObject kw =>
      member_is kw "name" is_text &&
      member_is kw "id" is_text &&
      member_is kw "department"
        (fun v => match v with JNull | JStr _ => true | _ => false end) &&
      member_is kw "max_hours_per_week"
        (fun v => match v with JInt _ => true | _ => false end) &&
      member_is kw "available_days"
        (fun v => match v with
                  | JNull => true
                  | JArray l => forallb is_text l
                  | _ => false
                  end)
  | _ => false
  end.

Definition text_of (j : option json) : string :=
  match j with
  | Some (JStr s) => s
  | _ => EmptyString
  end.

(** The employee that a typed record describes, with the defaults of the
    dataclass for the members it leaves out. *)
Definition employee_of_record (j : json) : Employee :=
  match j with
  | JObject kw =>
      {| name := text_of (dict_get kw "name");
         id := text_of (dict_get kw "id");
         department := match dict_get kw "department" with
                       | Some (JStr s) => Some s
                       | _ => None
                       end;
         max_hours_per_week := match dict_get kw "max_hours_per_week" with
                               | Some (JInt z) => z
                               | _ => 40
                               end;
         available_days := match dict_get kw "available_days" with
                           | Some (JArray l) => map (fun v => text_of (Some v)) l
                           | _ => default_available_days
                           end |}
  | _ =>
      {| name := EmptyString; id := EmptyString; department := None;
         max_hours_per_week := 40; available_days := default_available_days |}
  end.

(** The instance of an employee of the annotated types. *)
Definition Employee_object (emp : Employee) : EmployeeObject :=
  {| name_value := PStr (name emp);
     id_value := PStr (id emp);
     department_value := match department emp with
                         | Some s => PStr s
                         | None => PNone
                         end;
     max_hours_per_week_value := PInt (max_hours_per_week emp);
     available_days_value := PList (map PStr (available_days emp)) |}.

(** Induction on JSON values that reaches the elements of arrays and the
    members of objects. *)
Fixpoint json_nested_ind (P : json -> Prop)
  (HNull : P JNull) (HBool : forall b, P (JBool b)) (HInt : forall z, P (JInt z))
  (HFloat : forall t, P (JFloat t)) (HStr : forall s, P (JStr s))
  (HArray : forall l, Forall P l -> P (JArray l))
  (HObject : forall d, Forall (fun kv => P (snd kv)) d -> P (JObject d))
  (j : json) : P j :=
  match j with
  | JNull => HNull
  | JBool b => HBool b
  | JInt z => HInt z
  | JFloat t => HFloat t
  | JStr s => HStr s
  | JArray l =>
      HArray l ((fix all (l : list json) : Forall P l :=
                   match l with
                   | [] => Forall_nil P
                   | x :: rest =>
                       Forall_cons x
                         (json_nested_ind P HNull HBool HInt HFloat HStr HArray HObject x)
                         (all rest)
                   end) l)
  | JObject d =>
      HObject d ((fix all (d : list (string * json)) : Forall (fun kv => P (snd kv)) d :=
                    match d with
                    | [] => Forall_nil _
                    | kv :: rest =>
                        Forall_cons kv
                          (json_nested_ind P HNull HBool HInt HFloat HStr HArray HObject (snd kv))
                          (all rest)
                    end) d)
  end.

(** ** Examples *)

Definition ex_shift : Shift :=
  {| start_time := "09:00"; end_time := "17:00"; position := "Manager";
     employee_id := None |}.

(** Every reference denotes an unassigned manager shift. *)
Definition ex_store : store := fun _ => ex_shift.

Definition ex_employee : Employee :=
  {| name := "Ann"; id := "E1"; department := None; max_hours_per_week := 40;
     available_days := ["Monday"] |}.

(** One Monday with two shifts. *)
Definition ex_days : list (string * DayEntry) :=
  [("2024-01-01", {| day := "Monday"; shifts := [0%nat; 1%nat] |})].

Definition ex_state : state := typed_state ex_store [ex_employee] ex_days.

Definition no_files : filesystem := fun _ => None.

(** A generator with Ann on the roster and the week of 2024-01-01 built from
    a template with one Monday shift. *)
Definition ex_week_state : state :=
  snd (create_weekly_schedule
         (add_employee (init ex_store) ex_employee)
         "2024-01-01" [("Monday", [0%nat])]).

(** An employee record without an id. *)
Definition ex_document : json :=
  JObject [("employees", JArray [JObject [("name", JStr "Ann")]])].

(** A document without a schedule, and the same with a number for a name. *)
Definition ex_roster_document : json :=
  JObject [("employees", JArray [JObject [("name", JStr "Ann"); ("id", JStr "E1")]])].

Definition ex_untyped_document : json :=
  JObject [("employees", JArray [JObject [("name", JInt 5); ("id", JStr "E1")]])].

(** Shift 0 is Ann's, shift 1 carries the id of an employee who has left the
    roster, every other shift is unassigned. *)
Definition ex_assigned_store : store :=
  fun r =>
    match r with
    | O => with_employee_id ex_shift (Some "E1")
    | S O => with_employee_id ex_shift (Some "E9")
    | _ => ex_shift
    end.

Definition ex_assigned_days : list (string * DayEntry) :=
  [("2024-01-01", {| day := "Monday"; shifts := [0%nat; 1%nat; 2%nat] |});
   ("2024-01-02", {| day := "Tuesday"; shifts := [] |})].

Definition ex_assigned_state : state :=
  typed_state ex_assigned_store [ex_employee] ex_assigned_days.

(** ** Further definitions read off the source *)

(** [Employee(name, id, department, max_hours_per_week, available_days)]: the
    generated [__init__] with its defaults ([None] for [max_hours_per_week]
    stands for an argument left out), followed by [__post_init__], which
    replaces an [available_days] of [None] by Monday to Friday. *)
Definition Employee_init (n i : string) (dept : option string)
  (hours : option Z) (avail : option (list string)) : Employee :=
  {| name := n;
     id := i;
     department := dept;
     max_hours_per_week := match hours with Some h => h | None => 40 end;
     available_days := match avail with
                       | Some l => l
                       | None => default_available_days
                       end |}.

(** The number of shifts of a schedule that follows the annotations. *)
Definition shift_count (ds : list (string * DayEntry)) : nat :=
  list_sum (map (fun kv => List.length (shifts (snd kv))) ds).

(** No day of the schedule has a shift. *)
Definition no_shifts (ds : list (string * DayEntry)) : bool :=
  forallb (fun kv => match shifts (snd kv) with [] => true | _ => false end) ds.

(** The template without the entries whose key is not one of the seven day
    names. *)
Definition day_entries (tpl : template) : template :=
  filter (fun kv => existsb (String.eqb (fst kv)) days) tpl.

(** Induction on Python values that reaches the elements of lists and the
    values of dicts. *)
Fixpoint pyval_nested_ind (P : pyval -> Prop)
  (HNone : P PNone) (HBool : forall b, P (PBool b)) (HInt : forall z, P (PInt z))
  (HFloat : forall t, P (PFloat t)) (HStr : forall s, P (PStr s))
  (HList : forall l, Forall P l -> P (PList l))
  (HDict : forall d, Forall (fun kv => P (snd kv)) d -> P (PDict d))
  (HShift : forall r, P (PShift r))
  (v : pyval) : P v :=
  match v with
  | PNone => HNone
  | PBool b => HBool b
  | PInt z => HInt z
  | PFloat t => HFloat t
  | PStr s => HStr s
  | PList l =>
      HList l ((fix all (l : list pyval) : Forall P l :=
                  match l with
                  | [] => Forall_nil P
                  | x :: rest =>
                      Forall_cons x
                        (pyval_nested_ind P HNone HBool HInt HFloat HStr HList HDict HShift x)
                        (all rest)
                  end) l)
  | PDict d =>
      HDict d ((fix all (d : list (string * pyval)) : Forall (fun kv => P (snd kv)) d :=
                  match d with
                  | [] => Forall_nil _
                  | kv :: rest =>
                      Forall_cons kv
                        (pyval_nested_ind P HNone HBool HInt HFloat HStr HList HDict HShift
                           (snd kv))
                        (all rest)
                  end) d)
  | PShift r => HShift r
  end.

(** The two loops inside [to_json], by name. *)
Fixpoint to_json_elements (l : list pyval) : result (list json) :=
  match l with
  | [] => Ret []
  | x :: rest => x' <- to_json x ;; rest' <- to_json_elements rest ;; Ret (x' :: rest')
  end.

Fixpoint to_json_members (d : list (string * pyval)) : result (list (string * json)) :=
  match d with
  | [] => Ret []
  | (k, x) :: rest =>
      x' <- to_json x ;; rest' <- to_json_members rest ;; Ret ((k, x') :: rest')
  end.

(** A value that [json.load] can have returned. *)
Definition from_json (v : pyval) : Prop := exists j, v = of_json j.

(** A document as the specification describes the persisted state: Ann on the
    roster and a Monday with one shift, written as a record. *)
Definition ex_saved_week : json :=
  JObject
    [("employees", JArray [asdict ex_employee]);
     ("schedule",
      JObject
        [("2024-01-01",
          JObject
            [("day", JStr "Monday");
             ("shifts",
              JArray
                [JObject [("start_time", JStr "09:00"); ("end_time", JStr "17:00");
                          ("position", JStr "Manager"); ("employee_id", JNull)]])])])].

(** ** The [assign shift] command of [main]

    The body of the branch [elif command == 'assign shift'] of the command
    loop.  What the user types is given as the three answers as [int] reads
    them: an integer, or [None] when [int] raises [ValueError].  The output
    is the sequence of texts printed and of prompts shown by [input].  An
    exception that leaves the branch goes to the handler of the loop, which
    prints it and asks for the next command. *)
Inductive event :=
| Printed (text : string)
| Prompted (text : string).

Definition str_of_nat (n : nat) : string := NilZero.string_of_uint (Nat.to_uint n).

(** [int(input(...))] *)
Definition ask (answer : option Z) : result Z :=
  match answer with
  | Some z => Ret z
  | None => Raise ValueError
  end.

(** [list(v.keys())] *)
Definition py_keys (v : pyval) : result (list string) :=
  match v with
  | PDict d => Ret (map fst d)
  | _ => Raise AttributeError
  end.

Definition step {A : Type} (c : result A) (out : list event) (st : state)
  (k : A -> result unit * list event * state) : result unit * list event * state :=
  match c with
  | Ret a => k a
  | Raise e => (Raise e, out, st)
  | Unmodelled => (Unmodelled, out, st)
  end.

Definition after_loop (p : result unit * list event) (st : state)
  (k : list event -> result unit * list event * state) : result unit * list event * state :=
  match p with
  | (Ret _, out) => k out
  | (Raise e, out) => (Raise e, out, st)
  | (Unmodelled, out) => (Unmodelled, out, st)
  end.

Definition date_choice (i : nat) (date day_text : string) : string :=
  concat_all ["  "; str_of_nat i; ": "; date; " ("; day_text; ")"].

Definition shift_choice (i : nat) (s : Shift) (employee_name : string) : string :=
  concat_all ["  "; str_of_nat i; ": "; start_time s; "-"; end_time s; " ";
              position s; " ("; employee_name; ")"].

Definition employee_choice (i : nat) (emp : Employee) : string :=
  concat_all ["  "; str_of_nat i; ": "; name emp; " ("; id emp; ")"].

Definition msg_no_schedule : string :=
  "No schedule created yet. Use 'create schedule' first.".
Definition msg_successful : string := "Assignment successful".
Definition msg_failed : string :=
  "Assignment failed - employee may not be available on this day".
Definition msg_invalid : string := "Invalid selection".

(** The body of the [try]. *)
Definition selection (st : state) (date_answer shift_answer emp_answer : option Z)
  (out : list event) : result unit * list event * state :=
  let out := out ++ [Prompted "Select date (number): "] in
  step (date_index <- ask date_answer ;;
        keys <- py_keys (schedule st) ;;
        seq_index keys date_index) out st (fun selected_date =>
  let out := out ++ [Printed (concat_all [nl; "Shifts for "; selected_date; ":"])] in
  step (day_data <- py_getitem_str (schedule st) selected_date ;;
        py_getitem_str day_data "shifts") out st (fun shifts =>
  after_loop
    (then_ (py_iter shifts) out (fun l =>
       for_each (enumerate l) (fun ix out =>
         then_ (shift_of (objects st) (snd ix)) out (fun s =>
           (Ret tt,
            out ++ [Printed (shift_choice (fst ix) s (employee_name_of st "UNASSIGNED" s))])))
         out)) st (fun out =>
  let out := out ++ [Prompted "Select shift (number): "] in
  step (ask shift_answer) out st (fun shift_index =>
  let out := out ++ [Printed (concat_all [nl; "Available employees:"])] in
  let out := out ++ map (fun ie => Printed (employee_choice (fst ie) (snd ie)))
                        (enumerate (employees st)) in
  let out := out ++ [Prompted "Select employee (number): "] in
  step (emp_index <- ask emp_answer ;;
        emp <- seq_index (employees st) emp_index ;;
        Ret (id emp)) out st (fun employee_id =>
  match assign_employee_to_shift st selected_date shift_index employee_id with
  | (Ret true, st') => (Ret tt, out ++ [Printed msg_successful], st')
  | (Ret false, st') => (Ret tt, out ++ [Printed msg_failed], st')
  | (Raise e, st') => (Raise e, out, st')
  | (Unmodelled, st') => (Unmodelled, out, st')
  end))))).

(** [except (ValueError, IndexError): print("Invalid selection")], which
    also catches the subclasses of [ValueError]. *)
Definition except_invalid (p : result unit * list event * state)
  : result unit * list event * state :=
  match p with
  | (Raise ValueError, out, st) => (Ret tt, out ++ [Printed msg_invalid], st)
  | (Raise UnicodeDecodeError, out, st) => (Ret tt, out ++ [Printed msg_invalid], st)
  | (Raise IndexError, out, st) => (Ret tt, out ++ [Printed msg_invalid], st)
  | _ => p
  end.

Definition assign_shift_command (st : state)
  (date_answer shift_answer emp_answer : option Z)
  : result unit * list event * state :=
  step (truthy (schedule st)) [] st (fun has_schedule =>
  if negb has_schedule then (Ret tt, [Printed msg_no_schedule], st)
  else
    let out := [Printed (concat_all [nl; "Available dates:"])] in
    after_loop
      (then_ (py_items (schedule st)) out (fun items =>
         for_each (enumerate items) (fun ix out =>
           then_ (v <- py_getitem_str (snd (snd ix)) "day" ;; as_text v) out
             (fun day_text =>
                (Ret tt, out ++ [Printed (date_choice (fst ix) (fst (snd ix)) day_text)])))
           out)) st (fun out =>
    except_invalid (selection st date_answer shift_answer emp_answer out))).

(** The message the command ends with and the state it leaves, on a store
    that follows the annotations. *)
Definition command_outcome (h : store) (emps : list Employee)
  (ds : list (string * DayEntry)) (date_answer shift_answer emp_answer : option Z)
  : string * state :=
  let st := typed_state h emps ds in
  match ds with
  | [] => (msg_no_schedule, st)
  | _ :: _ =>
      match date_answer, shift_answer, emp_answer with
      | Some date_index, Some shift_index, Some emp_index =>
          match seq_index (map fst ds) date_index, seq_index emps emp_index with
          | Ret selected_date, Ret emp =>
              match assign_employee_to_shift st selected_date shift_index (id emp) with
              | (Ret true, st') => (msg_successful, st')
              | (Ret false, _) => (msg_failed, st)
              | _ => (msg_invalid, st)
              end
          | _, _ => (msg_invalid, st)
          end
      | _, _, _ => (msg_invalid, st)
      end
  end.

(** * Properties *)

(** ** The roster *)

Lemma first_with_id_filter (emps : list Employee) (eid : string) :
  first_with_id (filter (fun emp => negb (String.eqb (id emp) eid)) emps) eid = None.
Proof.
  induction emps as [|emp rest IH]; simpl; [reflexivity|].
  destruct (String.eqb (id emp) eid) eqn:E; simpl; [exact IH|].
  rewrite E. exact IH.
Qed.

Lemma existsb_filter_id (emps : list Employee) (eid : string) :
  existsb (fun emp => String.eqb (id emp) eid)
          (filter (fun emp => negb (String.eqb (id emp) eid)) emps) = false.
Proof.
  induction emps as [|emp rest IH]; simpl; [reflexivity|].
  destruct (String.eqb (id emp) eid) eqn:E; simpl; [exact IH|].
  rewrite E. exact IH.
Qed.

Lemma filter_unknown_id (emps : list Employee) (eid : string) :
  first_with_id emps eid = None ->
  filter (fun emp => negb (String.eqb (id emp) eid)) emps = emps.
Proof.
  induction emps as [|emp rest IH]; simpl; [reflexivity|].
  destruct (String.eqb (id emp) eid); simpl; [discriminate|].
  intros H. now rewrite IH.
Qed.

(** C8. After [remove_employee(eid)] no employee of the roster has the id
    [eid], however many had it before, and [get_employee(eid)] returns [None];
    removing an id that no employee has returns normally and leaves the whole
    state as it was.  The schedule and the shifts are never touched. *)
Theorem remove_employee_removes_every_match :
  forall (st : state) (eid : string),
    get_employee (remove_employee st eid) eid = None /\
    existsb (fun emp => String.eqb (id emp) eid)
            (employees (remove_employee st eid)) = false /\
    schedule (remove_employee st eid) = schedule st /\
    objects (remove_employee st eid) = objects st /\
    (get_employee st eid = None -> remove_employee st eid = st).
Proof.
  intros st eid. unfold get_employee, remove_employee. simpl.
  repeat split.
  - apply first_with_id_filter.
  - apply existsb_filter_id.
  - intros H. rewrite (filter_unknown_id _ _ H). now destruct st.
Qed.

(** ** Assignment *)

Lemma dict_get_map {V W : Type} (f : V -> W) (d : list (string * V)) (k : string) :
  dict_get (map (fun kv => (fst kv, f (snd kv))) d) k = option_map f (dict_get d k).
Proof.
  induction d as [|[k' v] rest IH]; simpl; [reflexivity|].
  destruct (String.eqb k' k); [reflexivity | exact IH].
Qed.

Lemma seq_index_shifts (refs : list loc) (i : Z) :
  seq_index (map PShift refs) i =
  match addressed refs i with
  | Some r => Ret (PShift r)
  | None => Raise IndexError
  end.
Proof.
  unfold seq_index, addressed. rewrite length_map.
  destruct ((0 <=? (if i <? 0 then i + Z.of_nat (List.length refs) else i)) &&
            ((if i <? 0 then i + Z.of_nat (List.length refs) else i) <? Z.of_nat (List.length refs)));
    [|reflexivity].
  rewrite nth_error_map.
  now destruct (nth_error refs _).
Qed.

(** What an assignment does on a store that follows the annotations, for
    every index. *)
Lemma assign_on_typed_state
  (h : store) (emps : list Employee) (ds : list (string * DayEntry))
  (date : string) (i : Z) (eid : string) :
  assign_employee_to_shift (typed_state h emps ds) date i eid =
  let st := typed_state h emps ds in
  match dict_get ds date with
  | None => (Ret false, st)
  | Some e =>
      if i <? Z.of_nat (List.length (shifts e)) then
        match first_with_id emps eid with
        | None => (Ret false, st)
        | Some emp =>
            if existsb (String.eqb (day e)) (available_days emp) then
              match addressed (shifts e) i with
              | Some r =>
                  (Ret true,
                   typed_state (store_set h r (with_employee_id (h r) (Some eid))) emps ds)
              | None => (Raise IndexError, st)
              end
            else (Ret false, st)
        end
      else (Ret false, st)
  end.
Proof.
  unfold assign_employee_to_shift, typed_state, schedule_value, get_employee. simpl.
  unfold dict_has.
  rewrite (dict_get_map (fun e => day_dict (day e) (shifts e))).
  destruct (dict_get ds date) as [e|]; simpl; [|reflexivity].
  rewrite length_map.
  destruct (i <? Z.of_nat (List.length (shifts e))); [|reflexivity].
  destruct (first_with_id emps eid) as [emp|]; simpl; [|reflexivity].
  unfold in_strs. simpl.
  destruct (existsb _ (available_days emp)); [|reflexivity].
  rewrite seq_index_shifts.
  destruct (addressed (shifts e) i); reflexivity.
Qed.

(** With an index that is not negative, the call succeeds exactly when the
    four preconditions hold, and then sets the addressed shift's id. *)
Lemma assign_nonnegative_index
  (h : store) (emps : list Employee) (ds : list (string * DayEntry))
  (date : string) (i : Z) (eid : string) :
  0 <= i ->
  (if assignable emps ds date i eid
   then exists r,
          addressed match dict_get ds date with Some e => shifts e | None => [] end i = Some r /\
          assign_employee_to_shift (typed_state h emps ds) date i eid =
          (Ret true, typed_state (store_set h r (with_employee_id (h r) (Some eid))) emps ds)
   else assign_employee_to_shift (typed_state h emps ds) date i eid =
        (Ret false, typed_state h emps ds)).
Proof.
  intros Hi. rewrite assign_on_typed_state. unfold assignable. cbv zeta.
  destruct (dict_get ds date) as [e|]; [|reflexivity].
  assert (H0 : (0 <=? i) = true) by (apply Z.leb_le; exact Hi). rewrite H0. simpl.
  destruct (i <? Z.of_nat (List.length (shifts e))) eqn:Hlt; simpl; [|reflexivity].
  destruct (first_with_id emps eid) as [emp|]; [|reflexivity].
  destruct (existsb (String.eqb (day e)) (available_days emp)); [|reflexivity].
  unfold addressed.
  assert (Hn : (i <? 0) = false) by (apply Z.ltb_ge; exact Hi). rewrite Hn, H0, Hlt. simpl.
  destruct (nth_error (shifts e) (Z.to_nat i)) as [r|] eqn:Hr.
  - exists r. split; reflexivity.
  - exfalso. apply nth_error_None in Hr. apply Z.ltb_lt in Hlt. lia.
Qed.

(** C5. When [assign_employee_to_shift] returns [False] the state after the
    call is the state before it: every [Shift] instance, the schedule and the
    roster are the same.  This holds for every state, whatever the schedule
    holds. *)
Theorem assign_failure_changes_nothing :
  forall (st st' : state) (date : string) (shift_index : Z) (eid : string),
    assign_employee_to_shift st date shift_index eid = (Ret false, st') ->
    st' = st.
Proof.
  intros st st' date i eid. unfold assign_employee_to_shift, run, bind.
  destruct (py_contains_str (schedule st) date) as [[|]| |]; try discriminate;
    [|intros H; now inversion H].
  destruct (py_getitem_str (schedule st) date) as [day_data| |]; try discriminate.
  destruct (py_getitem_str day_data "shifts") as [l| |]; try discriminate.
  destruct (py_len l) as [n| |]; try discriminate.
  destruct (i <? n); [|intros H; now inversion H].
  destruct (get_employee st eid) as [emp|]; [|intros H; now inversion H].
  destruct (py_getitem_str day_data "day") as [d| |]; try discriminate.
  destruct (in_strs d (available_days emp)); [|intros H; now inversion H].
  destruct (py_getitem_int l i) as [s| |]; try discriminate.
  destruct (set_employee_id (objects st) s eid); discriminate.
Qed.

(** ** Dates *)

Lemma days_in_month_bounds (y m : Z) : 28 <= days_in_month y m <= 31.
Proof.
  unfold days_in_month.
  destruct (m =? 2); [destruct (is_leap y); lia|].
  destruct ((m =? 4) || (m =? 6) || (m =? 9) || (m =? 11)); lia.
Qed.

Lemma days_in_december (y : Z) : days_in_month y 12 = 31.
Proof. reflexivity. Qed.

Lemma valid_date_iff (d : date) :
  valid_date d = true <->
  1 <= year d <= MAXYEAR /\ 1 <= month d <= 12 /\
  1 <= mday d <= days_in_month (year d) (month d).
Proof.
  unfold valid_date. rewrite !andb_true_iff, !Z.leb_le. tauto.
Qed.

Lemma week_fits_room (d : date) : week_fits d = true -> room d 6.
Proof.
  unfold week_fits, room. rewrite !orb_true_iff, !Z.ltb_lt, Z.leb_le. tauto.
Qed.

Lemma tomorrow_valid (d : date) (k : Z) :
  valid_date d = true -> room d (k + 1) -> 0 <= k <= 30 ->
  valid_date (tomorrow d) = true /\ room (tomorrow d) k /\
  date_ord d < date_ord (tomorrow d).
Proof.
  rewrite !valid_date_iff. unfold room, tomorrow, date_ord, MAXYEAR.
  intros (Hy & Hm & Hd) Hroom Hk.
  pose proof (days_in_month_bounds (year d) (month d)) as Hb.
  destruct (mday d <? days_in_month (year d) (month d)) eqn:E1; cbn [year month mday].
  - apply Z.ltb_lt in E1. repeat split; lia.
  - apply Z.ltb_ge in E1.
    destruct (month d <? 12) eqn:E2; cbn [year month mday].
    + apply Z.ltb_lt in E2.
      pose proof (days_in_month_bounds (year d) (month d + 1)).
      repeat split; lia.
    + apply Z.ltb_ge in E2.
      assert (Hm12 : month d = 12) by lia.
      rewrite Hm12, days_in_december in *.
      pose proof (days_in_month_bounds (year d + 1) 1).
      repeat split; lia.
Qed.

Lemma add_days_nth_day (d : date) (n : nat) :
  forall k : Z,
    valid_date d = true -> room d (Z.of_nat n + k) -> 0 <= k -> Z.of_nat n + k <= 30 ->
    add_days d n = Ret (nth_day d n) /\
    valid_date (nth_day d n) = true /\ room (nth_day d n) k.
Proof.
  induction n as [|n IH]; intros k Hv Hr Hk Hle.
  - simpl in *. auto.
  - destruct (IH (k + 1)) as (Ha & Hv' & Hr'); try lia; try assumption.
    { replace (Z.of_nat n + (k + 1)) with (Z.of_nat (S n) + k) by lia. exact Hr. }
    destruct (tomorrow_valid (nth_day d n) k Hv' Hr') as (Hv2 & Hr2 & _); [lia|].
    simpl. rewrite Ha. simpl. unfold next_day.
    apply valid_date_iff in Hv2 as Hy.
    assert (Hy' : (year (tomorrow (nth_day d n)) <=? MAXYEAR) = true)
      by (apply Z.leb_le; tauto).
    rewrite Hy'. auto.
Qed.

Lemma nth_day_ord_increasing (d : date) (n : nat) :
  valid_date d = true -> room d (Z.of_nat n) -> Z.of_nat n <= 30 ->
  forall i j : nat, (i < j <= n)%nat -> date_ord (nth_day d i) < date_ord (nth_day d j).
Proof.
  intros Hv Hr Hn i j. induction j as [|j IH]; intros Hij; [lia|].
  assert (Hstep : date_ord (nth_day d j) < date_ord (nth_day d (S j))).
  { destruct (add_days_nth_day d j (Z.of_nat n - Z.of_nat j)) as (_ & Hv' & Hr');
      try assumption; try lia.
    { replace (Z.of_nat j + (Z.of_nat n - Z.of_nat j)) with (Z.of_nat n) by lia. exact Hr. }
    simpl.
    destruct (tomorrow_valid (nth_day d j) (Z.of_nat n - Z.of_nat j - 1) Hv') as (_ & _ & Ho);
      try lia; try assumption.
    replace (Z.of_nat n - Z.of_nat j - 1 + 1) with (Z.of_nat n - Z.of_nat j) by lia.
    exact Hr'. }
  destruct (Nat.eq_dec i j) as [->|Hne]; [exact Hstep|].
  assert (date_ord (nth_day d i) < date_ord (nth_day d j)) by (apply IH; lia).
  lia.
Qed.

Lemma digit_injective (a b : Z) :
  0 <= a < 10 -> 0 <= b < 10 -> digit a = digit b -> a = b.
Proof.
  intros Ha Hb H. unfold digit in H.
  apply (f_equal nat_of_ascii) in H.
  rewrite !nat_ascii_embedding in H by lia. lia.
Qed.


Lemma digit_not_hyphen (z : Z) : 0 <= z < 10 -> digit z <> "-"%char.
Proof.
  intros Hz H. unfold digit in H. apply (f_equal nat_of_ascii) in H.
  rewrite nat_ascii_embedding in H by lia.
  change (nat_of_ascii "-") with 45%nat in H. lia.
Qed.

Lemma strftime_text (d : date) :
  strftime d =
  String.append (year_digits (year d))
    (String "-" (String (digit (month d / 10)) (String (digit (month d mod 10))
      (String "-" (String (digit (mday d / 10))
        (String (digit (mday d mod 10)) EmptyString)))))).
Proof. reflexivity. Qed.

Ltac digit_range := Z.to_euclidean_division_equations; lia.

Ltac hyphen_clash :=
  match goal with
  | H : digit ?z = "-"%char |- _ =>
      exfalso; apply (digit_not_hyphen z); [digit_range | exact H]
  | H : "-"%char = digit ?z |- _ =>
      exfalso; apply (digit_not_hyphen z); [digit_range | symmetry; exact H]
  end.

Ltac digits_agree :=
  repeat match goal with
  | H : digit ?x = digit ?y |- _ => apply digit_injective in H; [| digit_range ..]
  end.

(** Two dates of the calendar are printed alike only when they are the
    same date, whatever the number of digits of their years: a year
    with fewer digits has its hyphen where the other has a digit. *)
Lemma strftime_injective (a b : date) :
  valid_date a = true -> valid_date b = true -> strftime a = strftime b -> a = b.
Proof.
  rewrite !valid_date_iff. unfold MAXYEAR.
  intros (Hy & Hm & Hd) (Hy' & Hm' & Hd') H.
  pose proof (days_in_month_bounds (year a) (month a)).
  pose proof (days_in_month_bounds (year b) (month b)).
  rewrite !strftime_text in H. unfold year_digits, four_digits, two_digits in H.
  destruct (Z.ltb_spec (year a) 10);
    [|destruct (Z.ltb_spec (year a) 100); [|destruct (Z.ltb_spec (year a) 1000)]];
  (destruct (Z.ltb_spec (year b) 10);
    [|destruct (Z.ltb_spec (year b) 100); [|destruct (Z.ltb_spec (year b) 1000)]]);
  cbn [String.append] in H; injection H; intros;
  try discriminate; try hyphen_clash;
  digits_agree; destruct a, b; cbn [year month mday] in *; f_equal; digit_range.
Qed.

(** ** Building the week *)

Lemma dict_get_fresh {V : Type} (d : list (string * V)) (k : string) :
  ~ In k (map fst d) -> dict_get d k = None.
Proof.
  induction d as [|[k' v] rest IH]; simpl; [reflexivity|].
  intros H. destruct (String.eqb_spec k' k) as [->|_]; [|apply IH]; tauto.
Qed.

Lemma dict_set_fresh {V : Type} (d : list (string * V)) (k : string) (v : V) :
  dict_get d k = None -> dict_set d k v = d ++ [(k, v)].
Proof.
  induction d as [|[k' v'] rest IH]; simpl; [reflexivity|].
  destruct (String.eqb k' k); [discriminate|].
  intros H. now rewrite IH.
Qed.

Lemma dict_get_nth {V : Type} (d : list (string * V)) :
  NoDup (map fst d) ->
  forall (i : nat) (k : string) (v : V),
    nth_error d i = Some (k, v) -> dict_get d k = Some v.
Proof.
  induction d as [|[k' v'] rest IH]; intros Hnd i k v Hi.
  - destruct i; discriminate.
  - simpl in Hnd. inversion Hnd as [|? ? Hnotin Hnd']; subst.
    destruct i as [|i]; simpl in *.
    + inversion Hi; subst. now rewrite String.eqb_refl.
    + destruct (String.eqb_spec k' k) as [->|_].
      * exfalso. apply Hnotin. apply nth_error_In in Hi.
        change k with (fst (k, v)). now apply in_map.
      * eapply IH; eauto.
Qed.

Lemma NoDup_map_on {A B : Type} (f : A -> B) (l : list A) :
  (forall x y, In x l -> In y l -> f x = f y -> x = y) ->
  NoDup l -> NoDup (map f l).
Proof.
  induction l as [|a l IH]; intros Hinj Hnd; simpl; [constructor|].
  inversion Hnd as [|? ? Hnotin Hnd']; subst. constructor.
  - intros Hin. apply in_map_iff in Hin as (x & Hfx & Hx).
    apply Hnotin. rewrite <- (Hinj x a); simpl; auto.
  - apply IH; [|assumption]. intros x y Hx Hy. apply Hinj; simpl; auto.
Qed.

(** When every date of the loop exists and the keys are all different, the
    loop appends one day dict per label, in order. *)
Lemma fill_week_appends (start : date) (tpl : template) :
  forall (todo : list (nat * string)) (sched : list (string * pyval)),
    (forall il, In il todo -> add_days start (fst il) = Ret (nth_day start (fst il))) ->
    NoDup (map fst sched ++ map (fun il => strftime (nth_day start (fst il))) todo) ->
    fill_week start tpl todo sched =
    Ret (sched ++
         map (fun il => (strftime (nth_day start (fst il)),
                         day_dict (snd il) (dict_get_default tpl (snd il) [])))
             todo).
Proof.
  induction todo as [|[i label] rest IH]; intros sched Hadd Hnd; simpl.
  - now rewrite app_nil_r.
  - pose proof (Hadd (i, label) (or_introl eq_refl)) as Hi. simpl in Hi.
    rewrite Hi. simpl bind.
    simpl in Hnd. pose proof (NoDup_remove_2 _ _ _ Hnd) as Hnotin.
    rewrite dict_set_fresh
      by (apply dict_get_fresh; intros Hin; apply Hnotin; apply in_or_app; auto).
    rewrite IH.
    + now rewrite <- app_assoc.
    + intros il Hil. apply Hadd. simpl; auto.
    + rewrite map_app, <- app_assoc. exact Hnd.
Qed.

Lemma week_dates_exist (d : date) :
  valid_date d = true -> week_fits d = true ->
  forall i : nat, (i <= 6)%nat ->
    add_days d i = Ret (nth_day d i) /\ valid_date (nth_day d i) = true.
Proof.
  intros Hv Hw i Hi.
  destruct (add_days_nth_day d i (6 - Z.of_nat i)) as (Ha & Hv' & _);
    try assumption; try lia; [|auto].
  replace (Z.of_nat i + (6 - Z.of_nat i)) with 6 by lia.
  now apply week_fits_room.
Qed.

Lemma week_keys_differ (d : date) :
  valid_date d = true -> week_fits d = true ->
  NoDup (map (fun i => strftime (nth_day d i)) (seq 0 7)).
Proof.
  intros Hv Hw. apply NoDup_map_on; [|apply seq_NoDup].
  intros i j Hi Hj Heq.
  apply in_seq in Hi, Hj.
  apply strftime_injective in Heq;
    try (apply (week_dates_exist d Hv Hw); lia).
  pose proof (nth_day_ord_increasing d 6 Hv (week_fits_room d Hw)) as Hord.
  destruct (Nat.lt_trichotomy i j) as [Hlt|[->|Hgt]]; [|reflexivity|].
  - specialize (Hord ltac:(lia) i j ltac:(lia)). rewrite Heq in Hord. lia.
  - specialize (Hord ltac:(lia) j i ltac:(lia)). rewrite Heq in Hord. lia.
Qed.

Lemma strptime_valid (s : string) (d : date) :
  strptime s = Ret d -> valid_date d = true.
Proof.
  unfold strptime. destruct (parse_ymd _) as [d'|]; [|discriminate].
  destruct (valid_date d') eqn:E; [|discriminate].
  intros H. inversion H; subst. exact E.
Qed.

Lemma bind_ret {A B : Type} (a : A) (k : A -> result B) : bind (Ret a) k = k a.
Proof. reflexivity. Qed.

(** The schedule [create_weekly_schedule] builds and installs, for a start
    date whose week lies within the calendar. *)
Lemma create_weekly_schedule_result
  (st : state) (start_date : string) (tpl : template) (d : date) :
  strptime start_date = Ret d -> week_fits d = true ->
  create_weekly_schedule st start_date tpl =
  (Ret (schedule_value (week_from d tpl)),
   {| objects := objects st;
      employees := employees st;
      schedule := schedule_value (week_from d tpl) |}).
Proof.
  intros Hp Hw. pose proof (strptime_valid _ _ Hp) as Hv.
  unfold create_weekly_schedule. rewrite Hp, bind_ret.
  rewrite fill_week_appends.
  - cbn [app]. rewrite bind_ret.
    unfold schedule_value, week_from, dict_get_default, run.
    rewrite map_map. cbn [fst snd day shifts]. reflexivity.
  - intros [i label] Hin. apply (week_dates_exist d Hv Hw).
    apply in_combine_l in Hin. apply in_seq in Hin. simpl in *. lia.
  - exact (week_keys_differ d Hv Hw).
Qed.

Lemma week_from_keys (d : date) (tpl : template) :
  map fst (week_from d tpl) = map (fun i => strftime (nth_day d i)) (seq 0 7).
Proof. reflexivity. Qed.

Lemma week_from_length (d : date) (tpl : template) :
  List.length (week_from d tpl) = 7%nat.
Proof. reflexivity. Qed.

Lemma week_from_labels (d : date) (tpl : template) :
  map (fun kv => day (snd kv)) (week_from d tpl) = days.
Proof. reflexivity. Qed.

Lemma week_from_shifts (d : date) (tpl : template) :
  map (fun kv => shifts (snd kv)) (week_from d tpl) =
  map (fun label => dict_get_default tpl label []) days.
Proof. reflexivity. Qed.

Lemma week_from_keys_differ (d : date) (tpl : template) :
  valid_date d = true -> week_fits d = true -> NoDup (map fst (week_from d tpl)).
Proof. intros Hv Hw. rewrite week_from_keys. now apply week_keys_differ. Qed.

(** C6. For a start date that parses and is no later than 9999-12-25,
    [create_weekly_schedule] returns a dict of exactly seven entries, keyed by
    the seven consecutive dates from the start date on (all different),
    labelled "Monday" to "Sunday" by position, each with the template's list
    for its label or an empty list; the dict is installed as the generator's
    schedule whatever the schedule was before, and the roster and the shifts
    are left alone. *)
Theorem create_weekly_schedule_builds_the_week :
  forall (st : state) (start_date : string) (tpl : template) (d : date),
    strptime start_date = Ret d ->
    week_fits d = true ->
    let week := week_from d tpl in
    create_weekly_schedule st start_date tpl =
      (Ret (schedule_value week),
       {| objects := objects st; employees := employees st;
          schedule := schedule_value week |}) /\
    List.length week = 7%nat /\
    map fst week = map (fun i => strftime (nth_day d i)) (seq 0 7) /\
    NoDup (map fst week) /\
    map (fun kv => day (snd kv)) week = days /\
    map (fun kv => shifts (snd kv)) week =
      map (fun label => dict_get_default tpl label []) days.
Proof.
  intros st start_date tpl d Hp Hw week.
  pose proof (strptime_valid _ _ Hp) as Hv.
  split; [exact (create_weekly_schedule_result st start_date tpl d Hp Hw)|].
  split; [exact (week_from_length d tpl)|].
  split; [exact (week_from_keys d tpl)|].
  split; [exact (week_from_keys_differ d tpl Hv Hw)|].
  split; [exact (week_from_labels d tpl) | exact (week_from_shifts d tpl)].
Qed.

(** Past 9999-12-25 the seventh date does not exist: the call raises
    [OverflowError] and the schedule stays as it was. *)
Lemma create_weekly_schedule_out_of_calendar
  (st : state) (start_date : string) (tpl : template) (d : date) :
  strptime start_date = Ret d -> week_fits d = false ->
  create_weekly_schedule st start_date tpl = (Raise OverflowError, st).
Proof.
  intros Hp Hw. pose proof (strptime_valid _ _ Hp) as Hv.
  apply valid_date_iff in Hv. destruct Hv as (Hy & Hm & Hd).
  unfold week_fits in Hw. apply orb_false_iff in Hw as [Hw Hw3].
  apply orb_false_iff in Hw as [Hw1 Hw2].
  apply Z.ltb_ge in Hw1, Hw2. apply Z.leb_gt in Hw3.
  unfold create_weekly_schedule. rewrite Hp, bind_ret.
  destruct d as [y m dd]. cbn [year month mday] in *. unfold MAXYEAR in *.
  assert (y = 9999) by lia. assert (m = 12) by lia. subst y m.
  rewrite days_in_december in Hd.
  assert (Hdd : dd = 26 \/ dd = 27 \/ dd = 28 \/ dd = 29 \/ dd = 30 \/ dd = 31) by lia.
  destruct Hdd as [-> | [-> | [-> | [-> | [-> | ->]]]]]; reflexivity.
Qed.

Lemma nth_error_combine_seq {A : Type} (l : list A) :
  forall (s i : nat) (x : A),
    nth_error l i = Some x ->
    nth_error (combine (seq s (List.length l)) l) i = Some ((s + i)%nat, x).
Proof.
  induction l as [|a l IH]; intros s i x Hi.
  - destruct i; discriminate.
  - destruct i as [|i]; simpl in *.
    + inversion Hi; subst. now rewrite Nat.add_0_r.
    + rewrite (IH (S s) i x Hi). now rewrite Nat.add_succ_r.
Qed.

Lemma nth_error_enumerate {A : Type} (l : list A) (i : nat) (x : A) :
  nth_error l i = Some x -> nth_error (enumerate l) i = Some (i, x).
Proof. intros H. unfold enumerate. now rewrite (nth_error_combine_seq l 0 i x H). Qed.


(** ** Rendering *)

Lemma for_each_map {A B O : Type} (g : A -> B) (body : B -> O -> result unit * O) :
  forall (l : list A) (out : O),
    for_each (map g l) body out = for_each l (fun x => body (g x)) out.
Proof.
  induction l as [|x rest IH]; intros out; simpl; [reflexivity|].
  destruct (body (g x) out) as [[[]| |] out']; auto.
Qed.

Lemma for_each_appends {A B : Type} (f : A -> list B)
  (body : A -> list B -> result unit * list B) :
  forall (l : list A),
    (forall x out, In x l -> body x out = (Ret tt, out ++ f x)) ->
    forall out, for_each l body out = (Ret tt, out ++ flat_map f l).
Proof.
  induction l as [|x rest IH]; intros Hbody out; simpl.
  - now rewrite app_nil_r.
  - rewrite Hbody by (simpl; auto).
    rewrite IH by (intros; apply Hbody; simpl; auto).
    now rewrite app_assoc.
Qed.

Lemma flat_map_singleton {A B : Type} (f : A -> B) (l : list A) :
  flat_map (fun x => [f x]) l = map f l.
Proof. induction l as [|x l IH]; simpl; [reflexivity | now rewrite IH]. Qed.

Lemma append_empty_r (s : string) : String.append s EmptyString = s.
Proof. induction s as [|c s IH]; simpl; [reflexivity | now rewrite IH]. Qed.

Lemma append_associative (a b c : string) :
  String.append (String.append a b) c = String.append a (String.append b c).
Proof. induction a as [|x a IH]; simpl; [reflexivity | now rewrite IH]. Qed.

Lemma for_each_appends_text {A : Type} (f : A -> string)
  (body : A -> string -> result unit * string) :
  forall (l : list A),
    (forall x out, In x l -> body x out = (Ret tt, String.append out (f x))) ->
    forall out,
      for_each l body out = (Ret tt, String.append out (concat_all (map f l))).
Proof.
  induction l as [|x rest IH]; intros Hbody out; simpl.
  - now rewrite append_empty_r.
  - rewrite Hbody by (simpl; auto).
    rewrite IH by (intros; apply Hbody; simpl; auto).
    now rewrite append_associative.
Qed.

Lemma employee_name_of_cell (st : state) (marker : string) (s : Shift) :
  match employee_id s with
  | Some eid => negb (String.eqb eid EmptyString)
  | None => true
  end = true ->
  employee_name_of st marker s = employee_cell (employees st) marker (employee_id s).
Proof.
  unfold employee_name_of, employee_cell, get_employee.
  destruct (employee_id s) as [eid|]; [|reflexivity].
  destruct (String.eqb eid EmptyString); [discriminate|reflexivity].
Qed.

Lemma items_of_schedule_value (ds : list (string * DayEntry)) :
  py_items (schedule_value ds) =
  Ret (map (fun kv => (fst kv, day_dict (day (snd kv)) (shifts (snd kv)))) ds).
Proof. reflexivity. Qed.

Lemma export_to_csv_rows (h : store) (emps : list Employee) (ds : list (string * DayEntry)) :
  ids_not_empty h ds = true ->
  export_to_csv (typed_state h emps ds) =
  (Ret tt, csv_header :: csv_rows h emps EmptyString ds).
Proof.
  intros Hids. unfold export_to_csv, typed_state. cbn [schedule objects].
  rewrite items_of_schedule_value. cbn [then_].
  rewrite for_each_map.
  rewrite (for_each_appends (fun kv =>
    map (fun r => csv_row (fst kv) (day (snd kv)) (h r)
                    (employee_cell emps EmptyString (employee_id (h r))))
        (shifts (snd kv)))); [reflexivity|].
  intros [date e] out Hin. cbn [fst snd]. simpl then_.
  rewrite for_each_map.
  unfold ids_not_empty in Hids. rewrite forallb_forall in Hids.
  specialize (Hids _ Hin). cbn [snd] in Hids. rewrite forallb_forall in Hids.
  apply (for_each_appends (fun r => [_])).
  intros r out' Hr. simpl.
  rewrite employee_name_of_cell by (apply Hids; exact Hr). reflexivity.
Qed.

Lemma export_to_html_rows (h : store) (emps : list Employee) (ds : list (string * DayEntry)) :
  ids_not_empty h ds = true ->
  export_to_html (typed_state h emps ds) =
  Ret (String.append (String.append html_head (html_rows h emps "UNASSIGNED" ds)) html_tail).
Proof.
  intros Hids. unfold export_to_html, typed_state. cbn [schedule objects].
  rewrite items_of_schedule_value. cbn [then_].
  rewrite for_each_map.
  rewrite (for_each_appends_text (fun kv =>
    concat_all (map (fun r =>
      html_row match employee_id (h r) with
               | Some _ => EmptyString
               | None => "unassigned"
               end
               (fst kv) (day (snd kv)) (h r)
               (employee_cell emps "UNASSIGNED" (employee_id (h r))))
      (shifts (snd kv))))); [reflexivity|].
  intros [date e] out Hin. cbn [fst snd]. simpl then_.
  rewrite for_each_map.
  unfold ids_not_empty in Hids. rewrite forallb_forall in Hids.
  specialize (Hids _ Hin). cbn [snd] in Hids. rewrite forallb_forall in Hids.
  apply for_each_appends_text.
  intros r out' Hr. specialize (Hids r Hr). simpl.
  rewrite employee_name_of_cell by exact Hids. cbn [employees].
  destruct (employee_id (h r)) as [eid|]; [|reflexivity].
  simpl in Hids. destruct (String.eqb eid EmptyString); [discriminate|reflexivity].
Qed.

Lemma print_schedule_lines (h : store) (emps : list Employee) (ds : list (string * DayEntry)) :
  ids_not_empty h ds = true ->
  print_schedule (typed_state h emps ds) =
  (Ret tt, banner :: text_lines h emps "UNASSIGNED" ds).
Proof.
  intros Hids. unfold print_schedule, typed_state. cbn [schedule objects].
  rewrite items_of_schedule_value. cbn [then_].
  rewrite for_each_map.
  rewrite (for_each_appends (fun kv =>
    [day_line (fst kv) (day (snd kv)); rule] ++
    match shifts (snd kv) with
    | [] => ["  No shifts scheduled"]
    | refs => map (fun r => shift_line (h r)
                              (employee_cell emps "UNASSIGNED" (employee_id (h r)))) refs
    end ++ [EmptyString])); [reflexivity|].
  intros [date e] out Hin. cbn [fst snd]. simpl then_.
  unfold ids_not_empty in Hids. rewrite forallb_forall in Hids.
  specialize (Hids _ Hin). cbn [snd] in Hids. rewrite forallb_forall in Hids.
  destruct (shifts e) as [|r0 refs] eqn:Hrefs; simpl.
  - now rewrite <- !app_assoc.
  - rewrite employee_name_of_cell by (apply Hids; simpl; auto). cbn [employees].
    rewrite for_each_map.
    rewrite (for_each_appends (fun r =>
      [shift_line (h r) (employee_cell emps "UNASSIGNED" (employee_id (h r)))])).
    + rewrite <- !app_assoc. simpl. now rewrite flat_map_singleton.
    + intros r out' Hr. simpl.
      rewrite employee_name_of_cell by (apply Hids; simpl; auto). reflexivity.
Qed.

(** ** Persistence *)

(** Writing what was read gives the document back. *)
Lemma to_json_of_json (j : json) : to_json (of_json j) = Ret j.
Proof.
  induction j using json_nested_ind; simpl; try reflexivity.
  - match goal with |- bind ?c _ = _ => assert (Hl : c = Ret l) end.
    { induction H as [|x rest Hx _ IH]; simpl; [reflexivity|].
      rewrite Hx. simpl. rewrite IH. reflexivity. }
    now rewrite Hl.
  - match goal with |- bind ?c _ = _ => assert (Hd : c = Ret d) end.
    { induction H as [|[k x] rest Hx _ IH]; simpl; [reflexivity|].
      simpl in Hx. rewrite Hx. simpl. rewrite IH. reflexivity. }
    now rewrite Hd.
Qed.

Lemma as_strs_strings (l : list string) : as_strs (map PStr l) = Ret l.
Proof. induction l as [|s l IH]; simpl; [reflexivity | now rewrite IH]. Qed.

(** The record of an employee is read back as the instance of that
    employee, and the instance as the employee. *)
Lemma Employee_new_asdict (emp : Employee) :
  Employee_new (of_json (asdict emp)) = Ret (Employee_object emp).
Proof.
  destruct emp as [n i dept hours avail]. unfold asdict, Employee_object.
  cbn [name id department max_hours_per_week available_days].
  unfold Employee_new. cbn [of_json map]. rewrite map_map.
  destruct dept; reflexivity.
Qed.

Lemma Employee_typed_object (emp : Employee) :
  Employee_typed (Employee_object emp) = Ret emp.
Proof.
  destruct emp as [n i dept hours avail]. unfold Employee_typed, Employee_object.
  cbn [name_value id_value department_value max_hours_per_week_value available_days_value
       name id department max_hours_per_week available_days as_str as_int as_days bind].
  rewrite as_strs_strings. destruct dept; reflexivity.
Qed.

(** An [Employee] read back from its own record is the same employee. *)
Lemma Employee_of_asdict (emp : Employee) : Employee_of (of_json (asdict emp)) = Ret emp.
Proof.
  unfold Employee_of. rewrite Employee_new_asdict, bind_ret. apply Employee_typed_object.
Qed.

Lemma Employees_new_asdict (emps : list Employee) :
  Employees_new (map of_json (map asdict emps)) = Ret (map Employee_object emps).
Proof.
  induction emps as [|emp rest IH]; [reflexivity|].
  cbn [map Employees_new]. rewrite Employee_new_asdict, bind_ret, IH. reflexivity.
Qed.

Lemma Employees_typed_object (emps : list Employee) :
  Employees_typed (map Employee_object emps) = Ret emps.
Proof.
  induction emps as [|emp rest IH]; [reflexivity|].
  cbn [map Employees_typed]. rewrite Employee_typed_object, bind_ret, IH. reflexivity.
Qed.

Lemma write_file_same (fs : filesystem) (filename : string) (f : file) :
  write_file fs filename f filename = Some f.
Proof. unfold write_file. now rewrite String.eqb_refl. Qed.

(** Where the round trip holds: a schedule that holds no [Shift] instance
    (an empty one, or one that was itself loaded) is saved and loaded back
    unchanged, together with the whole roster. *)
Lemma save_then_load_without_shift_objects
  (fs : filesystem) (st other : state) (filename : string) (j : json) :
  schedule st = of_json j ->
  fst (save_data fs st filename) = Ret tt /\
  load_data (snd (save_data fs st filename)) other filename =
  (Ret true,
   {| objects := objects other; employees := employees st; schedule := schedule st |},
   []).
Proof.
  intros Hj. unfold save_data. rewrite Hj, to_json_of_json. cbn [fst snd].
  split; [reflexivity|].
  unfold load_data, load_data_reads. rewrite write_file_same.
  cbn [of_json map py_get dict_get_default dict_get String.eqb Ascii.eqb Bool.eqb].
  simpl dict_get. rewrite !bind_ret. cbn [py_iter]. rewrite bind_ret.
  rewrite Employees_new_asdict, !bind_ret, Employees_typed_object. reflexivity.
Qed.

Lemma dict_get_of_json (d : list (string * json)) (k : string) :
  dict_get (map (fun kv : string * json => let (k', v) := kv in (k', of_json v)) d) k =
  option_map of_json (dict_get d k).
Proof.
  induction d as [|[k' v] rest IH]; simpl; [reflexivity|].
  destruct (String.eqb k' k); [reflexivity | exact IH].
Qed.

(** The two failures that [load_data] handles: on a file that does not
    exist, and on a file whose text is not JSON, it returns [False] and
    leaves the roster, the schedule and the shifts as they were; it prints
    "File ... not found" in the first case and "Invalid JSON in ..." in the
    second, two different messages. *)
Lemma load_data_failure_keeps_state :
  forall (fs : filesystem) (st : state) (filename : string),
    (fs filename = None ->
     load_data fs st filename = (Ret false, st, [not_found_message filename])) /\
    (fs filename = Some NotJson ->
     load_data fs st filename = (Ret false, st, [invalid_json_message filename])) /\
    not_found_message filename <> invalid_json_message filename.
Proof.
  intros fs st filename. unfold load_data, load_data_reads. repeat split.
  - intros H. now rewrite H.
  - intros H. now rewrite H.
  - unfold not_found_message, invalid_json_message. simpl. discriminate.
Qed.

(** A file whose bytes are not UTF-8 is not handled: [load_data] raises
    [UnicodeDecodeError], whatever the generator holds, and changes nothing. *)
Lemma load_data_raises_on_bytes
  (fs : filesystem) (st : state) (filename : string) :
  fs filename = Some NotUtf8 ->
  load_data fs st filename = (Raise UnicodeDecodeError, st, []).
Proof. intros H. unfold load_data, load_data_reads. now rewrite H. Qed.

(** [load_data] changes the generator only where it returns [True]. *)
Lemma load_data_state_unless_true
  (fs : filesystem) (st st' : state) (filename : string)
  (r : result bool) (out : list string) :
  load_data fs st filename = (r, st', out) -> r = Ret true \/ st' = st.
Proof.
  unfold load_data.
  destruct (load_data_reads fs filename) as [[[[objs sched]|]| |] out'].
  - destruct (Employees_typed objs); intros H; inversion H; auto.
  - intros H; inversion H; auto.
  - intros H; inversion H; auto.
  - intros H; inversion H; auto.
Qed.

(** ** Loading a document *)

Lemma dict_get_default_of_json (d : list (string * json)) (k : string) (dflt : json) :
  dict_get_default
    (map (fun kv : string * json => let (k', v) := kv in (k', of_json v)) d) k (of_json dflt) =
  of_json (dict_get_default d k dflt).
Proof.
  unfold dict_get_default. rewrite dict_get_of_json. now destruct (dict_get d k).
Qed.

(** What [load_data] reads from a JSON object. *)
Lemma load_data_reads_object
  (fs : filesystem) (filename : string) (d : list (string * json)) :
  fs filename = Some (JsonText (JObject d)) ->
  load_data_reads fs filename =
  (l <- py_iter (of_json (dict_get_default d "employees" (JArray []))) ;;
   objs <- Employees_new l ;;
   Ret (Some (objs, of_json (dict_get_default d "schedule" (JObject [])))),
   []).
Proof.
  intros Hfile. unfold load_data_reads. rewrite Hfile. cbn [of_json py_get].
  rewrite !bind_ret.
  change (PList []) with (of_json (JArray [])).
  change (PDict []) with (of_json (JObject [])).
  rewrite !dict_get_default_of_json. reflexivity.
Qed.

Lemma known_keys_of_json (kw : list (string * json)) :
  forallb (fun kv : string * pyval => existsb (String.eqb (fst kv)) field_names)
    (map (fun kv : string * json => let (k', v) := kv in (k', of_json v)) kw) =
  forallb (fun k => existsb (String.eqb k) field_names) (map fst kw).
Proof.
  induction kw as [|[k v] rest IH]; [reflexivity|].
  cbn [map forallb fst]. now rewrite IH.
Qed.

(** [Employee] accepts exactly the employee records, whatever their values. *)
Lemma Employee_new_record (r : json) :
  employee_record r = true -> exists o, Employee_new (of_json r) = Ret o.
Proof.
  destruct r as [| | | | | |kw]; try discriminate.
  unfold employee_record, has_member, Employee_new. cbn [of_json].
  rewrite known_keys_of_json, !dict_get_of_json.
  intros H. apply andb_prop in H as [H Hid]. apply andb_prop in H as [Hkeys Hname].
  rewrite Hkeys.
  destruct (dict_get kw "name"); [|discriminate].
  destruct (dict_get kw "id"); [|discriminate].
  cbn [option_map]. eauto.
Qed.

Lemma Employee_new_other (r : json) :
  employee_record r = false -> Employee_new (of_json r) = Raise TypeError.
Proof.
  destruct r as [| | | | | |kw]; try reflexivity.
  unfold employee_record, has_member, Employee_new. cbn [of_json].
  rewrite known_keys_of_json, !dict_get_of_json.
  destruct (forallb _ (map fst kw)); [|reflexivity].
  destruct (dict_get kw "name"); [|reflexivity].
  destruct (dict_get kw "id"); [discriminate | reflexivity].
Qed.

Lemma Employees_new_records (records : list json) :
  forallb employee_record records = true ->
  exists objs, Employees_new (map of_json records) = Ret objs /\
               List.length objs = List.length records.
Proof.
  induction records as [|r rest IH]; intros H.
  - exists []. split; reflexivity.
  - cbn [forallb] in H. apply andb_prop in H as [Hr Hrest].
    destruct (Employee_new_record r Hr) as [o Ho].
    destruct (IH Hrest) as (objs & Hobjs & Hlen).
    exists (o :: objs). cbn [map Employees_new].
    rewrite Ho, bind_ret, Hobjs, bind_ret. cbn [List.length]. now rewrite Hlen.
Qed.

(** A record that [Employee] does not accept stops the list comprehension
    with a [TypeError], whatever the records before and after it. *)
Lemma Employees_new_other (records : list json) :
  forallb employee_record records = false ->
  Employees_new (map of_json records) = Raise TypeError.
Proof.
  induction records as [|r rest IH]; intros H; [discriminate|].
  cbn [forallb] in H. cbn [map Employees_new].
  destruct (employee_record r) eqn:Hr.
  - destruct (Employee_new_record r Hr) as [o Ho]. rewrite Ho, bind_ret.
    rewrite (IH H). reflexivity.
  - now rewrite (Employee_new_other r Hr).
Qed.

Lemma as_strs_texts (l : list json) :
  forallb is_text l = true ->
  as_strs (map of_json l) = Ret (map (fun v => text_of (Some v)) l).
Proof.
  induction l as [|x rest IH]; intros H; [reflexivity|].
  cbn [forallb] in H. apply andb_prop in H as [Hx Hrest].
  destruct x; try discriminate.
  cbn [map of_json as_strs as_str]. rewrite bind_ret, (IH Hrest). reflexivity.
Qed.

(** A typed record is read as the employee it describes. *)
Lemma Employee_of_typed_record (r : json) :
  typed_record r = true ->
  exists o, Employee_new (of_json r) = Ret o /\
            Employee_typed o = Ret (employee_of_record r).
Proof.
  intros H. unfold typed_record in H. apply andb_prop in H as [Hrec H].
  destruct r as [| | | | | |kw]; try discriminate.
  repeat match type of H with
         | _ && _ = true => let H' := fresh "Hm" in apply andb_prop in H as [H H']
         end.
  unfold employee_record, has_member in Hrec.
  apply andb_prop in Hrec as [Hrec Hid]. apply andb_prop in Hrec as [Hkeys Hname].
  unfold Employee_new. cbn [of_json].
  rewrite known_keys_of_json, Hkeys.
  change PNone with (of_json JNull).
  change (PInt 40) with (of_json (JInt 40)).
  rewrite !dict_get_default_of_json, !dict_get_of_json.
  unfold employee_of_record, dict_get_default, member_is in *.
  destruct (dict_get kw "name") as [[| | | |n| |]|]; try discriminate.
  destruct (dict_get kw "id") as [[| | | |i| |]|]; try discriminate.
  cbn [option_map]. eexists. split; [reflexivity|].
  unfold Employee_typed.
  cbn [name_value id_value department_value max_hours_per_week_value available_days_value
       as_str bind text_of].
  destruct (dict_get kw "department") as [[| | | |dept| |]|]; try discriminate;
  (destruct (dict_get kw "max_hours_per_week") as [[| |hours| | | |]|]; try discriminate);
  (destruct (dict_get kw "available_days") as [[| | | | |days|]|]; try discriminate);
  cbn [of_json as_optional_str as_int as_days bind];
  try reflexivity;
  rewrite (as_strs_texts days) by assumption; reflexivity.
Qed.

Lemma Employees_of_typed_records (records : list json) :
  forallb typed_record records = true ->
  exists objs, Employees_new (map of_json records) = Ret objs /\
               Employees_typed objs = Ret (map employee_of_record records).
Proof.
  induction records as [|r rest IH]; intros H.
  - exists []. split; reflexivity.
  - cbn [forallb] in H. apply andb_prop in H as [Hr Hrest].
    destruct (Employee_of_typed_record r Hr) as (o & Ho & Hto).
    destruct (IH Hrest) as (objs & Hobjs & Htyped).
    exists (o :: objs). cbn [map Employees_new Employees_typed].
    now rewrite Ho, bind_ret, Hobjs, bind_ret, Hto, bind_ret, Htyped, bind_ret.
Qed.

Lemma Employees_typed_outcome (objs : list EmployeeObject) :
  (exists emps, Employees_typed objs = Ret emps) \/ Employees_typed objs = Unmodelled.
Proof.
  induction objs as [|o rest IH]; [left; now exists []|].
  cbn [Employees_typed]. unfold Employee_typed.
  destruct (name_value o); cbn [as_str bind]; auto.
  destruct (id_value o); cbn [as_str bind]; auto.
  destruct (department_value o); cbn [as_optional_str bind]; auto;
  (destruct (max_hours_per_week_value o); cbn [as_int bind]; auto);
  (destruct (available_days_value o) as [| | | | |l| |]; cbn [as_days bind]; auto);
  (destruct (as_strs l) as [days| |] eqn:Hdays; cbn [bind]; auto;
   [destruct IH as [[emps ->]| ->]; cbn [bind]; eauto
   |exfalso; clear - Hdays; revert Hdays; induction l as [|x l IHl]; cbn [as_strs];
    [discriminate|];
    destruct x; cbn [as_str bind]; try discriminate;
    destruct (as_strs l); cbn [bind]; try discriminate; auto]).
Qed.

Lemma load_data_reads_records
  (fs : filesystem) (filename : string) (d : list (string * json)) (records : list json) :
  fs filename = Some (JsonText (JObject d)) ->
  dict_get d "employees" = Some (JArray records) ->
  load_data_reads fs filename =
  (objs <- Employees_new (map of_json records) ;;
   Ret (Some (objs, of_json (dict_get_default d "schedule" (JObject [])))),
   []).
Proof.
  intros Hfile Hemps. rewrite (load_data_reads_object fs filename d Hfile).
  unfold dict_get_default at 1. rewrite Hemps. cbn [of_json py_iter].
  now rewrite bind_ret.
Qed.


(** ** The claims that the code breaks, at concrete inputs *)

(** The example of the specification: Ann, available on Mondays, is assigned
    to shift 0 of the Monday; an unknown id, and index 5 of a two-shift day,
    are refused. *)
Example assign_specification_example :
  fst (assign_employee_to_shift ex_state "2024-01-01" 0 "E1") = Ret true /\
  employee_id (objects (snd (assign_employee_to_shift ex_state "2024-01-01" 0 "E1")) 0%nat)
    = Some "E1" /\
  assign_employee_to_shift ex_state "2024-01-01" 0 "E2" = (Ret false, ex_state) /\
  assign_employee_to_shift ex_state "2024-01-01" 5 "E1" = (Ret false, ex_state).
Proof. repeat split. Qed.

(** C1. With shift index -1 on a day of two shifts the index is out of the
    bounds the specification gives, so [assignable] is false; the call
    nevertheless returns [True] and sets the employee id of the last shift. *)
Theorem assign_accepts_negative_index :
  assignable [ex_employee] ex_days "2024-01-01" (-1) "E1" = false /\
  fst (assign_employee_to_shift ex_state "2024-01-01" (-1) "E1") = Ret true /\
  employee_id
    (objects (snd (assign_employee_to_shift ex_state "2024-01-01" (-1) "E1")) 1%nat)
    = Some "E1".
Proof. repeat split. Qed.

(** C3. With shift index -3 on a day of two shifts, an employee of the roster
    who is available that day makes the call raise [IndexError] instead of
    returning [False]. *)
Theorem assign_raises_below_range :
  assign_employee_to_shift ex_state "2024-01-01" (-3) "E1" = (Raise IndexError, ex_state).
Proof. reflexivity. Qed.

(** C2. A week built by [create_weekly_schedule] from a template with one
    shift cannot be saved: [save_data] raises [TypeError] on the [Shift]
    instance and leaves a file that is not JSON, on which [load_data] returns
    [False]. *)
Theorem save_data_raises_on_shift_objects :
  fst (create_weekly_schedule (add_employee (init ex_store) ex_employee)
         "2024-01-01" [("Monday", [0%nat])]) = Ret (schedule ex_week_state) /\
  py_getitem_str (schedule ex_week_state) "2024-01-01" = Ret (day_dict "Monday" [0%nat]) /\
  fst (save_data no_files ex_week_state "schedule_data.json") = Raise TypeError /\
  snd (save_data no_files ex_week_state "schedule_data.json") "schedule_data.json"
    = Some NotJson /\
  load_data (snd (save_data no_files ex_week_state "schedule_data.json"))
            ex_week_state "schedule_data.json"
    = (Ret false, ex_week_state, ["Invalid JSON in schedule_data.json"]).
Proof. repeat split; vm_compute; reflexivity. Qed.

(** C4.  A file whose bytes are not UTF-8 is a malformed document, and
    [load_data] does not return [False] on it: reading the file raises
    [UnicodeDecodeError], which is not a [json.JSONDecodeError] and passes
    the two handlers.  The generator is left as it was.  On a file whose text
    is not JSON the handler answers, as the claim says. *)
Theorem load_data_raises_on_undecodable_file :
  load_data (write_file no_files "data.json" NotUtf8) ex_state "data.json" =
    (Raise UnicodeDecodeError, ex_state, []) /\
  load_data (write_file no_files "data.json" NotJson) ex_state "data.json" =
    (Ret false, ex_state, ["Invalid JSON in data.json"]) /\
  load_data no_files ex_state "data.json" =
    (Ret false, ex_state, ["File data.json not found"]).
Proof. repeat split. Qed.

(** C7.  A shift that has no employee id is written by [export_to_csv] with
    an empty last cell, where the claim - and [print_schedule] and
    [export_to_html] on the same store - have "UNASSIGNED": the first
    conjunct is the file written, the second the rows of the claim, the
    third the console. *)
Theorem export_to_csv_leaves_unassigned_empty :
  export_to_csv ex_assigned_state =
    (Ret tt,
     [csv_header;
      ["2024-01-01"; "Monday"; "09:00"; "17:00"; "Manager"; "Ann"];
      ["2024-01-01"; "Monday"; "09:00"; "17:00"; "Manager"; "E9"];
      ["2024-01-01"; "Monday"; "09:00"; "17:00"; "Manager"; EmptyString]]) /\
  csv_rows ex_assigned_store [ex_employee] "UNASSIGNED" ex_assigned_days =
    [["2024-01-01"; "Monday"; "09:00"; "17:00"; "Manager"; "Ann"];
     ["2024-01-01"; "Monday"; "09:00"; "17:00"; "Manager"; "E9"];
     ["2024-01-01"; "Monday"; "09:00"; "17:00"; "Manager"; "UNASSIGNED"]] /\
  print_schedule ex_assigned_state =
    (Ret tt,
     [banner;
      "2024-01-01 (Monday)"; rule;
      "  09:00-17:00 | Manager | Ann";
      "  09:00-17:00 | Manager | E9";
      "  09:00-17:00 | Manager | UNASSIGNED";
      EmptyString;
      "2024-01-02 (Tuesday)"; rule;
      "  No shifts scheduled";
      EmptyString]).
Proof. repeat split. Qed.

(** ** The claims at concrete inputs *)

Lemma assign_failure_witness :
  snd (assign_employee_to_shift ex_state "2024-01-01" 5 "E1") = ex_state.
Proof.
  apply (assign_failure_changes_nothing ex_state _ "2024-01-01" 5 "E1").
  reflexivity.
Defined.

Lemma remove_employee_witness :
  get_employee (remove_employee (add_employee ex_state ex_employee) "E1") "E1" = None /\
  remove_employee ex_state "E7" = ex_state.
Proof.
  split.
  - exact (proj1 (remove_employee_removes_every_match
                    (add_employee ex_state ex_employee) "E1")).
  - apply (remove_employee_removes_every_match ex_state "E7"). reflexivity.
Defined.

Lemma load_data_failure_witness :
  load_data no_files ex_state "missing.json" =
    (Ret false, ex_state, [not_found_message "missing.json"]) /\
  load_data (write_file no_files "notes.txt" NotJson) ex_state "notes.txt" =
    (Ret false, ex_state, [invalid_json_message "notes.txt"]).
Proof.
  split.
  - apply (load_data_failure_keeps_state no_files ex_state "missing.json"). reflexivity.
  - apply (load_data_failure_keeps_state
             (write_file no_files "notes.txt" NotJson) ex_state "notes.txt").
    reflexivity.
Defined.

(** C6, as stated, fails on the last days of year 9999: the start date parses
    and the seventh date does not exist. *)
Lemma create_weekly_schedule_overflows :
  strptime "9999-12-26" = Ret {| year := 9999; month := 12; mday := 26 |} /\
  create_weekly_schedule ex_state "9999-12-26" [] = (Raise OverflowError, ex_state).
Proof. split; reflexivity. Qed.

(** Before year 1000 the keys have the year as [strftime] prints it, without
    padding, although the start date is written with four digits. *)
Example create_weekly_schedule_before_year_1000 :
  strptime "0999-12-30" = Ret {| year := 999; month := 12; mday := 30 |} /\
  fst (create_weekly_schedule ex_state "0999-12-30" []) =
    Ret (schedule_value (week_from {| year := 999; month := 12; mday := 30 |} [])) /\
  map fst (week_from {| year := 999; month := 12; mday := 30 |} []) =
    ["999-12-30"; "999-12-31"; "1000-01-01"; "1000-01-02"; "1000-01-03"; "1000-01-04";
     "1000-01-05"].
Proof. repeat split; vm_compute; reflexivity. Qed.

Lemma create_weekly_schedule_witness :
  create_weekly_schedule ex_state "2024-01-01" [("Monday", [0%nat])] =
  (Ret (schedule_value
          (week_from {| year := 2024; month := 1; mday := 1 |} [("Monday", [0%nat])])),
   {| objects := objects ex_state; employees := employees ex_state;
      schedule := schedule_value
          (week_from {| year := 2024; month := 1; mday := 1 |} [("Monday", [0%nat])]) |}).
Proof.
  apply (create_weekly_schedule_builds_the_week ex_state "2024-01-01"
           [("Monday", [0%nat])] {| year := 2024; month := 1; mday := 1 |});
    reflexivity.
Defined.


(** What the renderers do otherwise.  On a store that follows the
    annotations and in which no
    shift carries the empty string as its id, the three renderers go through
    the days in the order of the dict and through each day's shifts in the
    order of its list, and fill the employee column with the employee's name
    when the shift's id is on the roster and with the bare id when it is not.
    For a shift without an id the HTML page and the console show "UNASSIGNED",
    and the CSV file, which starts with the header row and has one row per
    shift, leaves the cell empty. *)
Lemma renderers_resolve_employee_names :
  forall (h : store) (emps : list Employee) (ds : list (string * DayEntry)),
    ids_not_empty h ds = true ->
    export_to_csv (typed_state h emps ds) =
      (Ret tt, csv_header :: csv_rows h emps EmptyString ds) /\
    export_to_html (typed_state h emps ds) =
      Ret (String.append (String.append html_head (html_rows h emps "UNASSIGNED" ds))
                         html_tail) /\
    print_schedule (typed_state h emps ds) =
      (Ret tt, banner :: text_lines h emps "UNASSIGNED" ds).
Proof.
  intros h emps ds Hids. split; [|split].
  - now apply export_to_csv_rows.
  - now apply export_to_html_rows.
  - now apply print_schedule_lines.
Qed.

Lemma renderers_witness :
  export_to_csv ex_assigned_state =
    (Ret tt, csv_header :: csv_rows ex_assigned_store [ex_employee] EmptyString ex_assigned_days).
Proof.
  apply (renderers_resolve_employee_names ex_assigned_store [ex_employee] ex_assigned_days).
  reflexivity.
Defined.



(** A name that is a number is accepted as well: [load_data] goes as far as
    [return True], with an instance whose name is 5. *)
Example load_data_reads_any_value :
  load_data_reads (write_file no_files "data.json" (JsonText ex_untyped_document)) "data.json" =
    (Ret (Some ([{| name_value := PInt 5;
                    id_value := PStr "E1";
                    department_value := PNone;
                    max_hours_per_week_value := PInt 40;
                    available_days_value := PList (map PStr default_available_days) |}],
                PDict [])),
     []).
Proof. reflexivity. Qed.


(** * Further properties *)

(** ** The roster *)

Lemma first_with_id_app (l1 l2 : list Employee) (eid : string) :
  first_with_id (l1 ++ l2) eid =
  match first_with_id l1 eid with
  | Some e => Some e
  | None => first_with_id l2 eid
  end.
Proof.
  induction l1 as [|e l1 IH]; simpl; [reflexivity|].
  destruct (String.eqb (id e) eid); [reflexivity | exact IH].
Qed.

(** X1. Looking an id up after [add_employee(e)] returns the employee that
    already had that id when there was one - an added duplicate is never
    found - and otherwise [e] when the id is [e]'s, and nothing for another
    id.  The schedule and the shifts are not touched. *)
Theorem add_employee_then_get_employee :
  forall (st : state) (e : Employee) (eid : string),
    get_employee (add_employee st e) eid =
      match get_employee st eid with
      | Some earlier => Some earlier
      | None => if String.eqb (id e) eid then Some e else None
      end /\
    schedule (add_employee st e) = schedule st /\
    objects (add_employee st e) = objects st.
Proof.
  intros st e eid. unfold get_employee, add_employee. cbn [employees schedule objects].
  rewrite first_with_id_app. simpl. repeat split.
Qed.

Lemma first_with_id_split (emps : list Employee) (eid : string) (e : Employee) :
  first_with_id emps eid = Some e ->
  id e = eid /\
  exists before after,
    emps = before ++ e :: after /\
    existsb (fun emp => String.eqb (id emp) eid) before = false.
Proof.
  induction emps as [|x rest IH]; simpl; [discriminate|].
  destruct (String.eqb_spec (id x) eid) as [Heq|Hne].
  - intros H. inversion H; subst x. split; [exact Heq|].
    exists [], rest. split; reflexivity.
  - intros H. destruct (IH H) as (Hid & before & after & Hsplit & Hnone).
    split; [exact Hid|]. exists (x :: before), after. split.
    + simpl. now rewrite Hsplit.
    + simpl. destruct (String.eqb_spec (id x) eid); [contradiction | exact Hnone].
Qed.

Lemma first_with_id_none (emps : list Employee) (eid : string) :
  first_with_id emps eid = None ->
  existsb (fun emp => String.eqb (id emp) eid) emps = false.
Proof.
  induction emps as [|x rest IH]; simpl; [reflexivity|].
  destruct (String.eqb (id x) eid); [discriminate | exact IH].
Qed.

(** X2. [get_employee] returns the first employee of the roster, in insertion
    order, whose id is the one asked for, and [None] exactly when no employee
    has that id. *)
Theorem get_employee_returns_first_match :
  forall (st : state) (eid : string),
    match get_employee st eid with
    | Some e =>
        id e = eid /\
        exists before after,
          employees st = before ++ e :: after /\
          existsb (fun emp => String.eqb (id emp) eid) before = false
    | None => existsb (fun emp => String.eqb (id emp) eid) (employees st) = false
    end.
Proof.
  intros st eid. unfold get_employee.
  destruct (first_with_id (employees st) eid) as [e|] eqn:H.
  - now apply first_with_id_split.
  - now apply first_with_id_none.
Qed.

Lemma first_with_id_filter_other (emps : list Employee) (eid other : string) :
  other <> eid ->
  first_with_id (filter (fun emp => negb (String.eqb (id emp) eid)) emps) other =
  first_with_id emps other.
Proof.
  intros Hne. induction emps as [|x rest IH]; simpl; [reflexivity|].
  destruct (String.eqb_spec (id x) eid) as [Heq|Hneq]; simpl.
  - destruct (String.eqb_spec (id x) other) as [Heq'|_]; [congruence | exact IH].
  - destruct (String.eqb (id x) other); [reflexivity | exact IH].
Qed.

Lemma filter_twice {A : Type} (p : A -> bool) (l : list A) :
  filter p (filter p l) = filter p l.
Proof.
  induction l as [|x l IH]; simpl; [reflexivity|].
  destruct (p x) eqn:E; simpl; [rewrite E, IH; reflexivity | exact IH].
Qed.

(** X3. [remove_employee(eid)] leaves every other id as it was: looking up an
    id different from [eid] gives the same employee before and after.
    Removing the same id a second time changes nothing more. *)
Theorem remove_employee_keeps_other_ids :
  forall (st : state) (eid other : string),
    other <> eid ->
    get_employee (remove_employee st eid) other = get_employee st other /\
    remove_employee (remove_employee st eid) eid = remove_employee st eid.
Proof.
  intros st eid other Hne. unfold get_employee, remove_employee.
  cbn [employees schedule objects]. split.
  - now apply first_with_id_filter_other.
  - now rewrite filter_twice.
Qed.

Lemma remove_employee_keeps_other_ids_witness :
  get_employee (remove_employee (add_employee ex_state ex_employee) "E7") "E1"
    = get_employee (add_employee ex_state ex_employee) "E1" /\
  remove_employee (remove_employee (add_employee ex_state ex_employee) "E7") "E7"
    = remove_employee (add_employee ex_state ex_employee) "E7".
Proof.
  apply (remove_employee_keeps_other_ids (add_employee ex_state ex_employee) "E7" "E1").
  discriminate.
Defined.

(** ** Assignment *)

(** X4. On a store that follows the annotations and with an index that is not
    negative, [assign_employee_to_shift] returns [True] exactly when the date
    is a key of the schedule, the index is below the number of shifts of that
    day, the id is on the roster and the day's label is among the available
    days of the first employee with that id; otherwise it returns [False] and
    changes nothing. *)
Theorem assign_succeeds_iff_preconditions :
  forall (h : store) (emps : list Employee) (ds : list (string * DayEntry))
         (date : string) (i : Z) (eid : string),
    0 <= i ->
    (fst (assign_employee_to_shift (typed_state h emps ds) date i eid) = Ret true <->
     assignable emps ds date i eid = true) /\
    (assignable emps ds date i eid = false ->
     assign_employee_to_shift (typed_state h emps ds) date i eid =
       (Ret false, typed_state h emps ds)).
Proof.
  intros h emps ds date i eid Hi.
  pose proof (assign_nonnegative_index h emps ds date i eid Hi) as H.
  destruct (assignable emps ds date i eid).
  - destruct H as (r & _ & Hr). rewrite Hr. split; [tauto | discriminate].
  - rewrite H. split; [split; discriminate | reflexivity].
Qed.

Lemma assign_succeeds_iff_preconditions_witness :
  (fst (assign_employee_to_shift (typed_state ex_store [ex_employee] ex_days)
          "2024-01-01" 1 "E1") = Ret true <->
   assignable [ex_employee] ex_days "2024-01-01" 1 "E1" = true) /\
  (assignable [ex_employee] ex_days "2024-01-01" 1 "E1" = false ->
   assign_employee_to_shift (typed_state ex_store [ex_employee] ex_days)
     "2024-01-01" 1 "E1" =
     (Ret false, typed_state ex_store [ex_employee] ex_days)).
Proof.
  apply (assign_succeeds_iff_preconditions ex_store [ex_employee] ex_days
           "2024-01-01" 1 "E1").
  lia.
Defined.

(** X5. A call of [assign_employee_to_shift] that returns [True] has written
    the id into one [Shift] instance and done nothing else: that shift keeps
    its times and position, every other shift, the roster and the schedule
    are as before, and the id is the id of an employee of the roster.  This
    holds for every state. *)
Theorem assign_success_changes_one_shift :
  forall (st st' : state) (date : string) (i : Z) (eid : string),
    assign_employee_to_shift st date i eid = (Ret true, st') ->
    employees st' = employees st /\
    schedule st' = schedule st /\
    (exists emp, get_employee st eid = Some emp /\ id emp = eid) /\
    exists r,
      forall r',
        objects st' r' =
        if Nat.eqb r' r
        then {| start_time := start_time (objects st r);
                end_time := end_time (objects st r);
                position := position (objects st r);
                employee_id := Some eid |}
        else objects st r'.
Proof.
  intros st st' date i eid. unfold assign_employee_to_shift, run, bind.
  destruct (py_contains_str (schedule st) date) as [[|]| |]; try discriminate.
  destruct (py_getitem_str (schedule st) date) as [day_data| |]; try discriminate.
  destruct (py_getitem_str day_data "shifts") as [l| |]; try discriminate.
  destruct (py_len l) as [n| |]; try discriminate.
  destruct (i <? n); [|discriminate].
  destruct (get_employee st eid) as [emp|] eqn:Hemp; [|discriminate].
  destruct (py_getitem_str day_data "day") as [d| |]; try discriminate.
  destruct (in_strs d (available_days emp)); [|discriminate].
  destruct (py_getitem_int l i) as [s| |]; try discriminate.
  destruct s; simpl; try discriminate.
  intros H. inversion H; subst st'. cbn [employees schedule objects].
  repeat split.
  - exists emp. split; [reflexivity|].
    unfold get_employee in Hemp. now apply first_with_id_split in Hemp.
  - exists r. intros r'. reflexivity.
Qed.

Lemma assign_success_changes_one_shift_witness :
  employees (snd (assign_employee_to_shift ex_state "2024-01-01" 0 "E1"))
    = employees ex_state.
Proof.
  apply (assign_success_changes_one_shift ex_state _ "2024-01-01" 0 "E1").
  reflexivity.
Defined.

(** X6. What the index does once the date, the employee and the availability
    are in order, on a day of [n] shifts: an index of [n] or more is refused
    with [False]; an index from [-n] to [-1] is accepted and addresses the
    shift at position [index + n], counting from the end as Python lists do;
    an index below [-n] raises [IndexError].  Nothing changes in the first and
    the last case. *)
Theorem assign_index_ranges :
  forall (h : store) (emps : list Employee) (ds : list (string * DayEntry))
         (date : string) (i : Z) (eid : string) (e : DayEntry) (emp : Employee),
    dict_get ds date = Some e ->
    first_with_id emps eid = Some emp ->
    existsb (String.eqb (day e)) (available_days emp) = true ->
    let n := Z.of_nat (List.length (shifts e)) in
    let st := typed_state h emps ds in
    (n <= i -> assign_employee_to_shift st date i eid = (Ret false, st)) /\
    (- n <= i < 0 ->
     exists r,
       nth_error (shifts e) (Z.to_nat (i + n)) = Some r /\
       assign_employee_to_shift st date i eid =
         (Ret true,
          typed_state (store_set h r (with_employee_id (h r) (Some eid))) emps ds)) /\
    (i < - n -> assign_employee_to_shift st date i eid = (Raise IndexError, st)).
Proof.
  intros h emps ds date i eid e emp Hdate Hemp Havail n st.
  subst st. rewrite assign_on_typed_state, Hdate, Hemp, Havail. cbv zeta.
  fold n. unfold addressed. fold n. repeat split.
  - intros Hi. apply Z.ltb_ge in Hi. now rewrite Hi.
  - intros [Hlo Hhi].
    assert (H1 : (i <? n) = true) by (apply Z.ltb_lt; lia).
    assert (H2 : (i <? 0) = true) by (apply Z.ltb_lt; lia).
    assert (H3 : (0 <=? i + n) = true) by (apply Z.leb_le; lia).
    assert (H4 : (i + n <? n) = true) by (apply Z.ltb_lt; lia).
    rewrite H1, H2, H3, H4. simpl.
    destruct (nth_error (shifts e) (Z.to_nat (i + n))) as [r|] eqn:Hr.
    + exists r. split; reflexivity.
    + exfalso. apply nth_error_None in Hr. unfold n in *. lia.
  - intros Hi.
    assert (H1 : (i <? n) = true) by (apply Z.ltb_lt; lia).
    assert (H2 : (i <? 0) = true) by (apply Z.ltb_lt; lia).
    assert (H3 : (0 <=? i + n) = false) by (apply Z.leb_gt; lia).
    now rewrite H1, H2, H3.
Qed.

Lemma assign_index_ranges_witness :
  let n := Z.of_nat (List.length (shifts {| day := "Monday"; shifts := [0%nat; 1%nat] |})) in
  let st := typed_state ex_store [ex_employee] ex_days in
  (n <= -2 -> assign_employee_to_shift st "2024-01-01" (-2) "E1" = (Ret false, st)) /\
  (- n <= -2 < 0 ->
   exists r,
     nth_error (shifts {| day := "Monday"; shifts := [0%nat; 1%nat] |})
               (Z.to_nat (-2 + n)) = Some r /\
     assign_employee_to_shift st "2024-01-01" (-2) "E1" =
       (Ret true,
        typed_state (store_set ex_store r (with_employee_id (ex_store r) (Some "E1")))
                    [ex_employee] ex_days)) /\
  (-2 < - n -> assign_employee_to_shift st "2024-01-01" (-2) "E1" = (Raise IndexError, st)).
Proof.
  apply (assign_index_ranges ex_store [ex_employee] ex_days "2024-01-01" (-2) "E1"
           {| day := "Monday"; shifts := [0%nat; 1%nat] |} ex_employee);
    reflexivity.
Defined.

Lemma assignable_independent_of_store
  (h : store) (emps : list Employee) (ds : list (string * DayEntry))
  (date : string) (i : Z) (eid : string) :
  0 <= i -> assignable emps ds date i eid = true ->
  exists r,
    addressed match dict_get ds date with Some e => shifts e | None => [] end i = Some r /\
    assign_employee_to_shift (typed_state h emps ds) date i eid =
      (Ret true, typed_state (store_set h r (with_employee_id (h r) (Some eid))) emps ds).
Proof.
  intros Hi Ha. pose proof (assign_nonnegative_index h emps ds date i eid Hi) as H.
  rewrite Ha in H. exact H.
Qed.

(** X7. Assigning a shift that is already assigned overwrites it: after two
    successive assignments of the same shift, to [first] and then to [second],
    both allowed, the shift carries [second]'s id, keeps its times and
    position, and every other shift is as it was before the two calls. *)
Theorem reassignment_overwrites :
  forall (h : store) (emps : list Employee) (ds : list (string * DayEntry))
         (date : string) (i : Z) (first second : string),
    0 <= i ->
    assignable emps ds date i first = true ->
    assignable emps ds date i second = true ->
    exists r st1 st2,
      assign_employee_to_shift (typed_state h emps ds) date i first = (Ret true, st1) /\
      assign_employee_to_shift st1 date i second = (Ret true, st2) /\
      employee_id (objects st1 r) = Some first /\
      objects st2 r = with_employee_id (h r) (Some second) /\
      (forall r', Nat.eqb r' r = false -> objects st2 r' = h r').
Proof.
  intros h emps ds date i first second Hi H1 H2.
  destruct (assignable_independent_of_store h emps ds date i first Hi H1) as (r & Hr & Ha1).
  destruct (assignable_independent_of_store
              (store_set h r (with_employee_id (h r) (Some first)))
              emps ds date i second Hi H2) as (r2 & Hr2 & Ha2).
  assert (r2 = r) by congruence. subst r2.
  eexists r, _, _. split; [exact Ha1|]. split; [exact Ha2|].
  cbn [objects typed_state]. unfold store_set. rewrite Nat.eqb_refl.
  repeat split.
  intros r' Hne. now rewrite Hne.
Qed.

Lemma reassignment_overwrites_witness :
  exists r st1 st2,
    assign_employee_to_shift
      (typed_state ex_store [ex_employee; Employee_init "Bob" "E2" None None None] ex_days)
      "2024-01-01" 0 "E1" = (Ret true, st1) /\
    assign_employee_to_shift st1 "2024-01-01" 0 "E2" = (Ret true, st2) /\
    employee_id (objects st1 r) = Some "E1" /\
    objects st2 r = with_employee_id (ex_store r) (Some "E2") /\
    (forall r', Nat.eqb r' r = false -> objects st2 r' = ex_store r').
Proof.
  apply (reassignment_overwrites ex_store
           [ex_employee; Employee_init "Bob" "E2" None None None] ex_days
           "2024-01-01" 0 "E1" "E2"); [lia | reflexivity | reflexivity].
Defined.

(** X8. After an assignment that succeeded, the renderers show the addressed
    shift under the name of the first employee of the roster with that id -
    unless the id is the empty string: the renderers test the id for
    truthiness, so a shift assigned to an employee whose id is empty is still
    shown as unassigned. *)
Theorem assigned_shift_is_rendered_by_name :
  forall (h : store) (emps : list Employee) (ds : list (string * DayEntry))
         (date : string) (i : Z) (eid : string),
    0 <= i ->
    assignable emps ds date i eid = true ->
    exists r emp,
      addressed match dict_get ds date with Some e => shifts e | None => [] end i = Some r /\
      first_with_id emps eid = Some emp /\
      forall marker,
        employee_name_of
          (snd (assign_employee_to_shift (typed_state h emps ds) date i eid)) marker
          (objects (snd (assign_employee_to_shift (typed_state h emps ds) date i eid)) r) =
        if String.eqb eid EmptyString then marker else name emp.
Proof.
  intros h emps ds date i eid Hi Ha.
  destruct (assignable_independent_of_store h emps ds date i eid Hi Ha) as (r & Hr & Hassign).
  unfold assignable in Ha.
  destruct (dict_get ds date) as [e|]; [|discriminate].
  destruct (first_with_id emps eid) as [emp|] eqn:Hemp;
    [|rewrite andb_false_r in Ha; discriminate].
  exists r, emp. split; [exact Hr|]. split; [reflexivity|].
  intros marker. rewrite Hassign. cbn [snd objects typed_state].
  unfold employee_name_of, store_set, get_employee, typed_state. rewrite Nat.eqb_refl.
  cbn [employee_id with_employee_id employees]. rewrite Hemp.
  reflexivity.
Qed.

Lemma assigned_shift_is_rendered_by_name_witness :
  exists r emp,
    addressed match dict_get ex_days "2024-01-01" with Some e => shifts e | None => [] end 0
      = Some r /\
    first_with_id [ex_employee] "E1" = Some emp /\
    forall marker,
      employee_name_of
        (snd (assign_employee_to_shift (typed_state ex_store [ex_employee] ex_days)
                "2024-01-01" 0 "E1")) marker
        (objects (snd (assign_employee_to_shift (typed_state ex_store [ex_employee] ex_days)
                         "2024-01-01" 0 "E1")) r) =
      if String.eqb "E1" EmptyString then marker else name emp.
Proof.
  apply (assigned_shift_is_rendered_by_name ex_store [ex_employee] ex_days
           "2024-01-01" 0 "E1"); [lia | reflexivity].
Defined.

(** ** Building the week *)

Lemma strptime_raises_value_error (s : string) (e : exn) :
  strptime s = Raise e -> e = ValueError.
Proof.
  unfold strptime. destruct (parse_ymd _) as [d|].
  - destruct (valid_date d); [discriminate | congruence].
  - congruence.
Qed.

Lemma strptime_modelled (s : string) : strptime s <> Unmodelled.
Proof.
  unfold strptime. destruct (parse_ymd _) as [d|]; [|discriminate].
  destruct (valid_date d); discriminate.
Qed.

(** X9. [create_weekly_schedule] is all or nothing.  When it returns, the
    returned dict is the generator's new schedule and the roster and the
    shifts are as before.  It raises only [ValueError], when the start date
    does not parse, and [OverflowError], when the week runs past 9999-12-31;
    the schedule the generator had is then still in place. *)
Theorem create_weekly_schedule_all_or_nothing :
  forall (st : state) (start_date : string) (tpl : template),
    match create_weekly_schedule st start_date tpl with
    | (Ret sched, st') =>
        schedule st' = sched /\ employees st' = employees st /\
        objects st' = objects st /\
        exists d, strptime start_date = Ret d /\ week_fits d = true
    | (Raise e, st') =>
        st' = st /\
        ((e = ValueError /\ strptime start_date = Raise ValueError) \/
         (e = OverflowError /\
          exists d, strptime start_date = Ret d /\ week_fits d = false))
    | (Unmodelled, _) => False
    end.
Proof.
  intros st start_date tpl.
  destruct (strptime start_date) as [d|e|] eqn:Hp.
  - destruct (week_fits d) eqn:Hw.
    + rewrite (create_weekly_schedule_result st start_date tpl d Hp Hw).
      cbn [schedule employees objects]. repeat split. now exists d.
    + rewrite (create_weekly_schedule_out_of_calendar st start_date tpl d Hp Hw).
      split; [reflexivity|]. right. split; [reflexivity|]. now exists d.
  - pose proof (strptime_raises_value_error _ _ Hp). subst e.
    unfold create_weekly_schedule. rewrite Hp. cbn [bind run].
    split; [reflexivity|]. left. split; reflexivity.
  - now apply strptime_modelled in Hp.
Qed.

(** X10. In a week built by [create_weekly_schedule], availability is checked
    against the label the day got from its position, not against the weekday
    of its date: assigning an employee of the roster to an existing shift of
    the [i]-th day succeeds exactly when the [i]-th name of Monday to Sunday
    is among the employee's available days. *)
Theorem assign_in_created_week_checks_the_label :
  forall (st : state) (start_date : string) (tpl : template) (d : date)
         (i : nat) (label : string) (refs : list loc) (k : nat)
         (eid : string) (emp : Employee),
    strptime start_date = Ret d ->
    week_fits d = true ->
    nth_error days i = Some label ->
    dict_get tpl label = Some refs ->
    (k < List.length refs)%nat ->
    get_employee st eid = Some emp ->
    fst (assign_employee_to_shift
           (snd (create_weekly_schedule st start_date tpl))
           (strftime (nth_day d i)) (Z.of_nat k) eid) =
    Ret (existsb (String.eqb label) (available_days emp)).
Proof.
  intros st start_date tpl d i label refs k eid emp Hp Hw Hlabel Htpl Hk Hemp.
  pose proof (strptime_valid _ _ Hp) as Hv.
  rewrite (create_weekly_schedule_result st start_date tpl d Hp Hw). cbn [snd].
  change {| objects := objects st; employees := employees st;
            schedule := schedule_value (week_from d tpl) |}
    with (typed_state (objects st) (employees st) (week_from d tpl)).
  rewrite assign_on_typed_state. cbv zeta.
  rewrite (dict_get_nth (week_from d tpl) (week_from_keys_differ d tpl Hv Hw) i
             (strftime (nth_day d i)) {| day := label; shifts := refs |}).
  - cbn [shifts day].
    assert (Hlt : (Z.of_nat k <? Z.of_nat (List.length refs)) = true)
      by (apply Z.ltb_lt; lia).
    rewrite Hlt. unfold get_employee in Hemp. rewrite Hemp.
    destruct (existsb (String.eqb label) (available_days emp)); [|reflexivity].
    unfold addressed.
    assert (H0 : (Z.of_nat k <? 0) = false) by (apply Z.ltb_ge; lia).
    assert (H1 : (0 <=? Z.of_nat k) = true) by (apply Z.leb_le; lia).
    rewrite H0, H1, Hlt. cbn [andb]. rewrite Nat2Z.id.
    destruct (nth_error refs k) as [r|] eqn:Hr; [reflexivity|].
    apply nth_error_None in Hr. lia.
  - unfold week_from. rewrite nth_error_map, (nth_error_enumerate _ _ _ Hlabel).
    cbn [option_map fst snd]. now rewrite Htpl.
Qed.

Lemma assign_in_created_week_witness :
  fst (assign_employee_to_shift
         (snd (create_weekly_schedule ex_state "2024-01-03" [("Monday", [0%nat])]))
         (strftime (nth_day {| year := 2024; month := 1; mday := 3 |} 0))
         (Z.of_nat 0) "E1") =
  Ret (existsb (String.eqb "Monday") (available_days ex_employee)).
Proof.
  apply (assign_in_created_week_checks_the_label ex_state "2024-01-03"
           [("Monday", [0%nat])] {| year := 2024; month := 1; mday := 3 |}
           0%nat "Monday" [0%nat] 0%nat "E1" ex_employee);
    try reflexivity.
  simpl. lia.
Defined.

Lemma dict_get_filter_key {V : Type} (p : string -> bool) (d : list (string * V)) (k : string) :
  dict_get (filter (fun kv => p (fst kv)) d) k = if p k then dict_get d k else None.
Proof.
  induction d as [|[k' v] rest IH]; simpl; [now destruct (p k)|].
  destruct (p k') eqn:Hp; simpl.
  - destruct (String.eqb_spec k' k) as [->|_]; [now rewrite Hp | exact IH].
  - destruct (String.eqb_spec k' k) as [->|_]; [now rewrite IH, Hp | exact IH].
Qed.

Lemma fill_week_day_entries (start : date) (tpl : template) :
  forall (todo : list (nat * string)) (sched : list (string * pyval)),
    (forall il, In il todo -> In (snd il) days) ->
    fill_week start (day_entries tpl) todo sched = fill_week start tpl todo sched.
Proof.
  induction todo as [|[i label] rest IH]; intros sched Hdays; [reflexivity|].
  cbn [fill_week].
  assert (Hl : existsb (String.eqb label) days = true).
  { apply existsb_exists. exists label. split; [|apply String.eqb_refl].
    apply (Hdays (i, label)). simpl; auto. }
  assert (Hget : dict_get_default (day_entries tpl) label [] = dict_get_default tpl label []).
  { unfold dict_get_default, day_entries.
    rewrite (dict_get_filter_key (fun k => existsb (String.eqb k) days)).
    now rewrite Hl. }
  rewrite Hget.
  destruct (add_days start i) as [cur| |]; cbn [bind]; [|reflexivity|reflexivity].
  apply IH. intros il Hil. apply Hdays. simpl; auto.
Qed.

(** X11. Only the seven day names count as keys of the template: entries
    under any other key - a lower-case "monday", a date - are ignored, so
    the call does the same with the template as with the template without
    them, and a day whose name is missing gets an empty list of shifts. *)
Theorem create_weekly_schedule_ignores_other_keys :
  forall (st : state) (start_date : string) (tpl : template),
    create_weekly_schedule st start_date (day_entries tpl) =
    create_weekly_schedule st start_date tpl.
Proof.
  intros st start_date tpl. unfold create_weekly_schedule.
  destruct (strptime start_date) as [d| |]; cbn [bind]; [|reflexivity|reflexivity].
  rewrite fill_week_day_entries; [reflexivity|].
  intros [i label] Hin. apply in_combine_r in Hin. exact Hin.
Qed.

(** ** Employees *)

(** X12. An employee created without [available_days] - by the constructor,
    or by [load_data] from a record that has only a name and an id - is
    available from Monday to Friday, works 40 hours at most and has no
    department unless told otherwise; no shift of a day labelled "Saturday"
    or "Sunday" can be assigned to such an employee. *)
Theorem default_employee_works_on_weekdays :
  forall (h : store) (n i : string) (dept : option string) (hours : option Z)
         (others : list Employee) (ds : list (string * DayEntry))
         (date : string) (k : Z) (e : DayEntry),
    dict_get ds date = Some e ->
    day e = "Saturday" \/ day e = "Sunday" ->
    available_days (Employee_init n i dept hours None) =
      ["Monday"; "Tuesday"; "Wednesday"; "Thursday"; "Friday"] /\
    Employee_of (PDict [("name", PStr n); ("id", PStr i)]) =
      Ret (Employee_init n i None None None) /\
    assign_employee_to_shift
      (typed_state h (Employee_init n i dept hours None :: others) ds) date k i =
      (Ret false, typed_state h (Employee_init n i dept hours None :: others) ds).
Proof.
  intros h n i dept hours others ds date k e Hdate Hday.
  split; [reflexivity|]. split; [reflexivity|].
  rewrite assign_on_typed_state, Hdate. cbv zeta.
  destruct (k <? Z.of_nat (List.length (shifts e))); [|reflexivity].
  cbn [first_with_id Employee_init id]. rewrite String.eqb_refl.
  cbn [available_days].
  destruct Hday as [-> | ->]; reflexivity.
Qed.

Lemma default_employee_witness :
  available_days (Employee_init "Bob" "E2" None None None) =
    ["Monday"; "Tuesday"; "Wednesday"; "Thursday"; "Friday"] /\
  Employee_of (PDict [("name", PStr "Bob"); ("id", PStr "E2")]) =
    Ret (Employee_init "Bob" "E2" None None None) /\
  assign_employee_to_shift
    (typed_state ex_store [Employee_init "Bob" "E2" None None None]
       [("2024-01-06", {| day := "Saturday"; shifts := [0%nat] |})]) "2024-01-06" 0 "E2" =
    (Ret false,
     typed_state ex_store [Employee_init "Bob" "E2" None None None]
       [("2024-01-06", {| day := "Saturday"; shifts := [0%nat] |})]).
Proof.
  apply (default_employee_works_on_weekdays ex_store "Bob" "E2" None None []
           [("2024-01-06", {| day := "Saturday"; shifts := [0%nat] |})]
           "2024-01-06" 0 {| day := "Saturday"; shifts := [0%nat] |});
    [reflexivity | left; reflexivity].
Defined.

(** ** Persistence *)

Lemma to_json_inverse (v : pyval) : forall j, to_json v = Ret j -> of_json j = v.
Proof.
  induction v using pyval_nested_ind; intros j Hj; simpl in Hj;
    try (inversion Hj; subst; reflexivity); try discriminate.
  - match type of Hj with bind ?c _ = _ => destruct c as [l'| |] eqn:Hl end;
      try discriminate.
    simpl in Hj. inversion Hj; subst j. simpl. f_equal.
    clear Hj. revert l' Hl.
    induction H as [|x rest Hx _ IH]; intros l' Hl.
    + inversion Hl; reflexivity.
    + destruct (to_json x) as [x'| |] eqn:Ex; try discriminate. simpl in Hl.
      match type of Hl with bind ?c _ = _ => destruct c as [rest'| |] eqn:Er end;
        try discriminate.
      simpl in Hl. inversion Hl; subst l'. simpl.
      rewrite (Hx x' eq_refl), (IH rest' eq_refl). reflexivity.
  - match type of Hj with bind ?c _ = _ => destruct c as [d'| |] eqn:Hd end;
      try discriminate.
    simpl in Hj. inversion Hj; subst j. simpl. f_equal.
    clear Hj. revert d' Hd.
    induction H as [|[k x] rest Hx _ IH]; intros d' Hd.
    + inversion Hd; reflexivity.
    + simpl in Hx. destruct (to_json x) as [x'| |] eqn:Ex; try discriminate.
      simpl in Hd.
      match type of Hd with bind ?c _ = _ => destruct c as [rest'| |] eqn:Er end;
        try discriminate.
      simpl in Hd. inversion Hd; subst d'. simpl.
      rewrite (Hx x' eq_refl), (IH rest' eq_refl). reflexivity.
Qed.

Lemma to_json_outcome (v : pyval) :
  match to_json v with
  | Ret _ => True
  | Raise e => e = TypeError
  | Unmodelled => False
  end.
Proof.
  induction v using pyval_nested_ind; simpl; auto.
  - match goal with |- match bind ?c _ with _ => _ end =>
      assert (Hc : match c with Ret _ => True | Raise e => e = TypeError
                              | Unmodelled => False end) end.
    { induction H as [|x rest Hx _ IH]; simpl; [exact I|].
      destruct (to_json x) as [x'|e|]; simpl; auto.
      match goal with |- match bind ?c _ with _ => _ end => destruct c end; simpl; auto. }
    match goal with |- match bind ?c _ with _ => _ end => destruct c end; simpl; auto.
  - match goal with |- match bind ?c _ with _ => _ end =>
      assert (Hc : match c with Ret _ => True | Raise e => e = TypeError
                              | Unmodelled => False end) end.
    { induction H as [|[k x] rest Hx _ IH]; simpl; [exact I|].
      simpl in Hx. destruct (to_json x) as [x'|e|]; simpl; auto.
      match goal with |- match bind ?c _ with _ => _ end => destruct c end; simpl; auto. }
    match goal with |- match bind ?c _ with _ => _ end => destruct c end; simpl; auto.
Qed.

(** X13. Whenever [save_data] returns, [load_data] on the file it wrote
    returns [True] and installs exactly the roster and the schedule that were
    saved, whatever the loading generator held before.  (The shifts in the
    store are not part of the file and are not touched.) *)
Theorem save_data_then_load_data :
  forall (fs : filesystem) (st other : state) (filename : string),
    fst (save_data fs st filename) = Ret tt ->
    load_data (snd (save_data fs st filename)) other filename =
      (Ret true,
       {| objects := objects other; employees := employees st; schedule := schedule st |},
       []).
Proof.
  intros fs st other filename Hsave.
  destruct (to_json (schedule st)) as [j| |] eqn:Hj;
    try (unfold save_data in Hsave; rewrite Hj in Hsave; discriminate).
  apply to_json_inverse in Hj.
  exact (proj2 (save_then_load_without_shift_objects fs st other filename j (eq_sym Hj))).
Qed.

Lemma save_data_then_load_data_witness :
  load_data (snd (save_data no_files (add_employee (init ex_store) ex_employee) "roster.json"))
            ex_state "roster.json" =
    (Ret true,
     {| objects := objects ex_state;
        employees := employees (add_employee (init ex_store) ex_employee);
        schedule := schedule (add_employee (init ex_store) ex_employee) |},
     []).
Proof.
  apply (save_data_then_load_data no_files (add_employee (init ex_store) ex_employee)
           ex_state "roster.json").
  reflexivity.
Defined.

Lemma to_json_list (l : list pyval) :
  to_json (PList l) = (l' <- to_json_elements l ;; Ret (JArray l')).
Proof.
  reflexivity.
Qed.

Lemma to_json_dict (d : list (string * pyval)) :
  to_json (PDict d) = (d' <- to_json_members d ;; Ret (JObject d')).
Proof.
  reflexivity.
Qed.

Lemma to_json_day_dict (label : string) (refs : list loc) :
  to_json (day_dict label refs) =
  match refs with
  | [] => Ret (JObject [("day", JStr label); ("shifts", JArray [])])
  | _ :: _ => Raise TypeError
  end.
Proof. destruct refs; reflexivity. Qed.

Lemma to_json_schedule_value (ds : list (string * DayEntry)) :
  to_json (schedule_value ds) =
  if no_shifts ds
  then Ret (JObject (map (fun kv =>
              (fst kv, JObject [("day", JStr (day (snd kv))); ("shifts", JArray [])])) ds))
  else Raise TypeError.
Proof.
  unfold schedule_value. rewrite to_json_dict.
  assert (Hc : to_json_members
                 (map (fun kv => (fst kv, day_dict (day (snd kv)) (shifts (snd kv)))) ds) =
               if no_shifts ds
               then Ret (map (fun kv =>
                      (fst kv, JObject [("day", JStr (day (snd kv)));
                                        ("shifts", JArray [])])) ds)
               else Raise TypeError).
  { induction ds as [|[date e] rest IH]; [reflexivity|].
    cbn [map fst snd to_json_members]. rewrite to_json_day_dict, IH.
    unfold no_shifts. cbn [forallb snd].
    destruct (shifts e); [|reflexivity].
    cbn [andb bind]. fold (no_shifts rest). now destruct (no_shifts rest). }
  rewrite Hc. now destruct (no_shifts ds).
Qed.

(** X14. On a schedule that follows the annotations, [save_data] returns only
    when no day has a shift: as soon as one day holds a [Shift] instance it
    raises [TypeError] and leaves a file that is not JSON. *)
Theorem save_data_fails_with_any_shift :
  forall (fs : filesystem) (h : store) (emps : list Employee)
         (ds : list (string * DayEntry)) (filename : string),
    fst (save_data fs (typed_state h emps ds) filename) =
      (if no_shifts ds then Ret tt else Raise TypeError) /\
    snd (save_data fs (typed_state h emps ds) filename) filename =
      (if no_shifts ds
       then Some (JsonText (JObject
              [("employees", JArray (map asdict emps));
               ("schedule",
                JObject (map (fun kv =>
                  (fst kv, JObject [("day", JStr (day (snd kv))); ("shifts", JArray [])]))
                  ds))]))
       else Some NotJson).
Proof.
  intros fs h emps ds filename. unfold save_data, typed_state. cbn [schedule employees].
  rewrite to_json_schedule_value.
  destruct (no_shifts ds); cbn [fst snd]; rewrite write_file_same; split; reflexivity.
Qed.



(** ** Schedules that were loaded from a file *)

Lemma from_json_str (s : string) : from_json (PStr s).
Proof. now exists (JStr s). Qed.

Lemma getitem_str_from_json (v x : pyval) (k : string) :
  from_json v -> py_getitem_str v k = Ret x -> from_json x.
Proof.
  intros [j ->] H. destruct j; simpl in H; try discriminate.
  rewrite dict_get_of_json in H.
  destruct (dict_get d k) as [j'|]; simpl in H; [|discriminate].
  inversion H. now exists j'.
Qed.

Lemma seq_index_map {A B : Type} (f : A -> B) (l : list A) (i : Z) :
  seq_index (map f l) i =
  match seq_index l i with
  | Ret x => Ret (f x)
  | Raise e => Raise e
  | Unmodelled => Unmodelled
  end.
Proof.
  unfold seq_index. rewrite length_map.
  destruct ((0 <=? _) && (_ <? _)); [|reflexivity].
  rewrite nth_error_map. now destruct (nth_error l _).
Qed.

Lemma getitem_int_from_json (v x : pyval) (i : Z) :
  from_json v -> py_getitem_int v i = Ret x -> from_json x.
Proof.
  intros [j ->] H. destruct j; simpl in H; try discriminate.
  - destruct (seq_index (list_ascii_of_string s) i) as [c| |]; simpl in H;
      try discriminate.
    inversion H. apply from_json_str.
  - rewrite seq_index_map in H.
    destruct (seq_index l i) as [j'| |]; try discriminate.
    inversion H. now exists j'.
Qed.

Lemma iter_from_json (v : pyval) (l : list pyval) :
  from_json v -> py_iter v = Ret l -> Forall from_json l.
Proof.
  intros [j ->] H. destruct j; simpl in H; try discriminate; inversion H; subst l;
    apply Forall_forall; intros x Hx; apply in_map_iff in Hx.
  - destruct Hx as (c & <- & _). apply from_json_str.
  - destruct Hx as (j' & <- & _). now exists j'.
  - destruct Hx as ([k j'] & <- & _). apply from_json_str.
Qed.

Lemma items_from_json (v : pyval) (l : list (string * pyval)) :
  from_json v -> py_items v = Ret l -> Forall (fun kv => from_json (snd kv)) l.
Proof.
  intros [j ->] H. destruct j; simpl in H; try discriminate. inversion H; subst l.
  apply Forall_forall. intros x Hx. apply in_map_iff in Hx.
  destruct Hx as ([k j'] & <- & _). now exists j'.
Qed.

Lemma shift_of_from_json (h : store) (v : pyval) :
  from_json v -> shift_of h v = Raise AttributeError.
Proof. intros [j ->]. now destruct j. Qed.

Lemma set_employee_id_from_json (h : store) (v : pyval) (e : string) :
  from_json v -> set_employee_id h v e = Raise AttributeError.
Proof. intros [j ->]. now destruct j. Qed.

Lemma load_data_schedule_from_json
  (fs : filesystem) (st st' : state) (filename : string) (out : list string) :
  load_data fs st filename = (Ret true, st', out) -> from_json (schedule st').
Proof.
  unfold load_data, load_data_reads.
  destruct (fs filename) as [[j| |]|]; try discriminate.
  destruct j; cbn [of_json py_get bind]; try discriminate.
  destruct (py_iter _) as [l| |]; cbn [bind]; try discriminate.
  destruct (Employees_new l) as [objs| |]; cbn [bind]; try discriminate.
  destruct (Employees_typed objs) as [emps| |]; try discriminate.
  intros H. inversion H; subst st'. cbn [schedule].
  unfold dict_get_default. rewrite dict_get_of_json.
  destruct (dict_get d "schedule") as [j'|]; cbn [option_map].
  - now exists j'.
  - now exists (JObject []).
Qed.

Lemma assign_never_true_from_json
  (st : state) (date : string) (i : Z) (eid : string) :
  from_json (schedule st) ->
  fst (assign_employee_to_shift st date i eid) <> Ret true.
Proof.
  intros Hj. unfold assign_employee_to_shift, run, bind.
  destruct (py_contains_str (schedule st) date) as [[|]| |]; try discriminate.
  destruct (py_getitem_str (schedule st) date) as [day_data| |] eqn:H1; try discriminate.
  pose proof (getitem_str_from_json _ _ _ Hj H1) as Hd.
  destruct (py_getitem_str day_data "shifts") as [l| |] eqn:H2; try discriminate.
  pose proof (getitem_str_from_json _ _ _ Hd H2) as Hl.
  destruct (py_len l) as [n| |]; try discriminate.
  destruct (i <? n); [|discriminate].
  destruct (get_employee st eid) as [emp|]; [|discriminate].
  destruct (py_getitem_str day_data "day") as [d| |]; try discriminate.
  destruct (in_strs d (available_days emp)); [|discriminate].
  destruct (py_getitem_int l i) as [s| |] eqn:H3; try discriminate.
  rewrite (set_employee_id_from_json _ _ _ (getitem_int_from_json _ _ _ Hl H3)).
  discriminate.
Qed.

Lemma assign_state_unless_true (st : state) (date : string) (i : Z) (eid : string) :
  fst (assign_employee_to_shift st date i eid) <> Ret true ->
  snd (assign_employee_to_shift st date i eid) = st.
Proof.
  unfold assign_employee_to_shift, run, bind.
  destruct (py_contains_str (schedule st) date) as [[|]| |]; try reflexivity.
  destruct (py_getitem_str (schedule st) date) as [day_data| |]; try reflexivity.
  destruct (py_getitem_str day_data "shifts") as [l| |]; try reflexivity.
  destruct (py_len l) as [n| |]; try reflexivity.
  destruct (i <? n); [|reflexivity].
  destruct (get_employee st eid) as [emp|]; [|reflexivity].
  destruct (py_getitem_str day_data "day") as [d| |]; try reflexivity.
  destruct (in_strs d (available_days emp)); [|reflexivity].
  destruct (py_getitem_int l i) as [s| |]; try reflexivity.
  destruct (set_employee_id (objects st) s eid); try reflexivity.
  cbn [fst]. intros H. now contradiction H.
Qed.

(** X16. After [load_data] has returned [True], no assignment succeeds until
    a new week is created: the shifts of a loaded schedule are plain dicts,
    not [Shift] instances, so [assign_employee_to_shift] returns [False] or
    raises, whatever the date, the index and the id. *)
Theorem no_assignment_after_load_data :
  forall (fs : filesystem) (st st' : state) (filename : string) (out : list string)
         (date : string) (i : Z) (eid : string),
    load_data fs st filename = (Ret true, st', out) ->
    fst (assign_employee_to_shift st' date i eid) <> Ret true /\
    snd (assign_employee_to_shift st' date i eid) = st'.
Proof.
  intros fs st st' filename out date i eid Hload.
  pose proof (load_data_schedule_from_json _ _ _ _ _ Hload) as Hj.
  pose proof (assign_never_true_from_json st' date i eid Hj) as Hne.
  split; [exact Hne | now apply assign_state_unless_true].
Qed.

Lemma no_assignment_after_load_data_witness :
  fst (assign_employee_to_shift
         (snd (fst (load_data
            (write_file no_files "week.json" (JsonText ex_saved_week)) ex_state "week.json")))
         "2024-01-01" 0 "E1") <> Ret true /\
  snd (assign_employee_to_shift
         (snd (fst (load_data
            (write_file no_files "week.json" (JsonText ex_saved_week)) ex_state "week.json")))
         "2024-01-01" 0 "E1") =
  snd (fst (load_data
         (write_file no_files "week.json" (JsonText ex_saved_week)) ex_state "week.json")).
Proof.
  apply (no_assignment_after_load_data
           (write_file no_files "week.json" (JsonText ex_saved_week)) ex_state _
           "week.json" [] "2024-01-01" 0 "E1").
  reflexivity.
Defined.

(** What happens there: the date, the index and Ann are all in order and the
    call raises [AttributeError] on the dict that stands for the shift. *)
Example assign_after_load_data_example :
  fst (assign_employee_to_shift
         (snd (fst (load_data
            (write_file no_files "week.json" (JsonText ex_saved_week)) ex_state "week.json")))
         "2024-01-01" 0 "E1") = Raise AttributeError.
Proof. reflexivity. Qed.

Lemma for_each_keeps {A O : Type} (body : A -> O -> result unit * O) :
  forall (l : list A) (out : O),
    (forall x o, In x l -> snd (body x o) = o) ->
    snd (for_each l body out) = out.
Proof.
  induction l as [|x rest IH]; intros out Hbody; [reflexivity|].
  cbn [for_each].
  pose proof (Hbody x out (or_introl eq_refl)) as Hx.
  destruct (body x out) as [[[]| |] out']; cbn [snd] in *; subst out'; try reflexivity.
  apply IH. intros y o Hy. apply Hbody. simpl; auto.
Qed.

Lemma then_keeps {A O : Type} (c : result A) (out : O) (k : A -> result unit * O) :
  (forall a, c = Ret a -> snd (k a) = out) -> snd (then_ c out k) = out.
Proof. destruct c; intros H; cbn [then_ snd]; auto. Qed.

Lemma shifts_iter_from_json (day_data : pyval) (l : list pyval) :
  from_json day_data ->
  (v <- py_getitem_str day_data "shifts" ;; py_iter v) = Ret l ->
  Forall from_json l.
Proof.
  intros Hd H. destruct (py_getitem_str day_data "shifts") as [v| |] eqn:Hv;
    cbn [bind] in H; try discriminate.
  exact (iter_from_json v l (getitem_str_from_json _ _ _ Hd Hv) H).
Qed.

Lemma export_to_csv_from_json (st : state) :
  from_json (schedule st) -> snd (export_to_csv st) = [csv_header].
Proof.
  intros Hj. unfold export_to_csv. apply then_keeps. intros items Hitems.
  pose proof (items_from_json _ _ Hj Hitems) as Hall. rewrite Forall_forall in Hall.
  apply for_each_keeps. intros kv o Hkv. apply then_keeps. intros l Hl.
  pose proof (shifts_iter_from_json _ _ (Hall kv Hkv) Hl) as Hshifts.
  rewrite Forall_forall in Hshifts.
  apply for_each_keeps. intros shift o' Hshift. apply then_keeps. intros row Hrow.
  rewrite (shift_of_from_json _ _ (Hshifts shift Hshift)) in Hrow. discriminate.
Qed.

Lemma export_to_html_from_json (st : state) (html : string) :
  from_json (schedule st) ->
  export_to_html st = Ret html -> html = String.append html_head html_tail.
Proof.
  intros Hj. unfold export_to_html.
  match goal with |- match ?p with _ => _ end = _ -> _ =>
    assert (Hsnd : snd p = html_head); [|destruct p as [[[]| |] c]] end.
  - apply then_keeps. intros items Hitems.
    pose proof (items_from_json _ _ Hj Hitems) as Hall. rewrite Forall_forall in Hall.
    apply for_each_keeps. intros kv o Hkv. apply then_keeps. intros l Hl.
    pose proof (shifts_iter_from_json _ _ (Hall kv Hkv) Hl) as Hshifts.
    rewrite Forall_forall in Hshifts.
    apply for_each_keeps. intros shift o' Hshift. apply then_keeps. intros row Hrow.
    rewrite (shift_of_from_json _ _ (Hshifts shift Hshift)) in Hrow. discriminate.
  - cbn [snd] in Hsnd. subst c. intros H. now inversion H.
  - discriminate.
  - discriminate.
Qed.

(** X17. After [load_data] has returned [True] the exports show no shift: the
    CSV export writes the header row and nothing else, and the HTML export,
    when it returns, writes a table without rows.  With a loaded schedule
    that has a shift both stop with an exception at that shift. *)
Theorem exports_show_no_shift_after_load_data :
  forall (fs : filesystem) (st st' : state) (filename : string) (out : list string),
    load_data fs st filename = (Ret true, st', out) ->
    snd (export_to_csv st') = [csv_header] /\
    (forall html, export_to_html st' = Ret html ->
                  html = String.append html_head html_tail).
Proof.
  intros fs st st' filename out Hload.
  pose proof (load_data_schedule_from_json _ _ _ _ _ Hload) as Hj.
  split.
  - now apply export_to_csv_from_json.
  - intros html. now apply export_to_html_from_json.
Qed.

Lemma exports_after_load_data_witness :
  snd (export_to_csv
         (snd (fst (load_data
            (write_file no_files "week.json" (JsonText ex_saved_week)) ex_state "week.json"))))
    = [csv_header].
Proof.
  apply (exports_show_no_shift_after_load_data
           (write_file no_files "week.json" (JsonText ex_saved_week)) ex_state _
           "week.json" []).
  reflexivity.
Defined.

Example export_to_csv_after_load_data_example :
  export_to_csv
    (snd (fst (load_data
       (write_file no_files "week.json" (JsonText ex_saved_week)) ex_state "week.json")))
  = (Raise AttributeError, [csv_header]).
Proof. reflexivity. Qed.

(** ** The size of the CSV export *)

Lemma length_flat_map {A B : Type} (f : A -> list B) (l : list A) :
  List.length (flat_map f l) = list_sum (map (fun x => List.length (f x)) l).
Proof.
  induction l as [|x l IH]; simpl; [reflexivity|].
  now rewrite length_app, IH.
Qed.

(** X18. On every store that follows the annotations, whatever the ids the
    shifts carry, [export_to_csv] returns and writes the header row followed
    by exactly one row of six cells per shift of the schedule; a schedule
    without shifts gives the header alone. *)
Theorem export_to_csv_one_row_per_shift :
  forall (h : store) (emps : list Employee) (ds : list (string * DayEntry)),
    exists rows,
      export_to_csv (typed_state h emps ds) = (Ret tt, csv_header :: rows) /\
      List.length rows = shift_count ds /\
      Forall (fun row => List.length row = 6%nat) rows.
Proof.
  intros h emps ds.
  exists (flat_map (fun kv =>
            map (fun r => csv_row (fst kv) (day (snd kv)) (h r)
                            (employee_name_of (typed_state h emps ds) EmptyString (h r)))
                (shifts (snd kv))) ds).
  split; [|split].
  - unfold export_to_csv. cbn [schedule objects typed_state].
    rewrite items_of_schedule_value. cbn [then_].
    rewrite for_each_map.
    rewrite (for_each_appends (fun kv =>
      map (fun r => csv_row (fst kv) (day (snd kv)) (h r)
                      (employee_name_of (typed_state h emps ds) EmptyString (h r)))
          (shifts (snd kv)))); [reflexivity|].
    intros [date e] out Hin. cbn [fst snd]. simpl then_.
    rewrite for_each_map.
    apply (for_each_appends (fun r => [_])).
    intros r out' Hr. reflexivity.
  - rewrite length_flat_map. unfold shift_count. f_equal.
    apply map_ext. intros kv. now rewrite length_map.
  - apply Forall_forall. intros row Hrow. apply in_flat_map in Hrow.
    destruct Hrow as (kv & _ & Hrow). apply in_map_iff in Hrow.
    destruct Hrow as (r & <- & _). reflexivity.
Qed.

(** ** The [assign shift] command *)

Lemma seq_index_outcome {A : Type} (l : list A) (i : Z) :
  match seq_index l i with
  | Ret x => In x l
  | Raise e => e = IndexError
  | Unmodelled => False
  end.
Proof.
  unfold seq_index. destruct ((0 <=? _) && (_ <? _)); [|reflexivity].
  destruct (nth_error l _) as [x|] eqn:H; [|reflexivity].
  now apply nth_error_In in H.
Qed.

Lemma dict_get_of_key {V : Type} (d : list (string * V)) (k : string) :
  In k (map fst d) -> exists v, dict_get d k = Some v.
Proof.
  induction d as [|[k' v] rest IH]; simpl; [contradiction|].
  intros H. destruct (String.eqb_spec k' k) as [_|Hne]; [now exists v|].
  destruct H as [H|H]; [contradiction | now apply IH].
Qed.

Lemma for_each_prints {A B : Type} (c : A -> result B) (g : A -> B -> event) :
  forall (l : list A) (out : list event),
    (forall x, In x l -> exists b, c x = Ret b) ->
    exists printed,
      for_each l (fun x out => then_ (c x) out (fun b => (Ret tt, out ++ [g x b]))) out =
      (Ret tt, out ++ printed).
Proof.
  induction l as [|x rest IH]; intros out Hc.
  - exists []. now rewrite app_nil_r.
  - destruct (Hc x (or_introl eq_refl)) as [b Hb]. cbn [for_each]. rewrite Hb. cbn [then_].
    destruct (IH (out ++ [g x b])) as [printed Hp].
    { intros y Hy. apply Hc. simpl; auto. }
    exists (g x b :: printed). rewrite Hp. now rewrite <- app_assoc.
Qed.

Lemma assign_typed_outcomes
  (h : store) (emps : list Employee) (ds : list (string * DayEntry))
  (date : string) (i : Z) (eid : string) :
  (exists st', assign_employee_to_shift (typed_state h emps ds) date i eid = (Ret true, st')) \/
  assign_employee_to_shift (typed_state h emps ds) date i eid =
    (Ret false, typed_state h emps ds) \/
  assign_employee_to_shift (typed_state h emps ds) date i eid =
    (Raise IndexError, typed_state h emps ds).
Proof.
  rewrite assign_on_typed_state. cbv zeta.
  destruct (dict_get ds date) as [e|]; [|now right; left].
  destruct (i <? _); [|now right; left].
  destruct (first_with_id emps eid) as [emp|]; [|now right; left].
  destruct (existsb _ _); [|now right; left].
  destruct (addressed (shifts e) i) as [r|]; [left; eexists; reflexivity | now right; right].
Qed.

Lemma dates_listing (ds : list (string * DayEntry)) (out : list event) :
  exists printed,
    then_ (py_items (schedule_value ds)) out (fun items =>
      for_each (enumerate items) (fun ix out =>
        then_ (v <- py_getitem_str (snd (snd ix)) "day" ;; as_text v) out
          (fun day_text =>
             (Ret tt, out ++ [Printed (date_choice (fst ix) (fst (snd ix)) day_text)])))
        out) = (Ret tt, out ++ printed).
Proof.
  rewrite items_of_schedule_value. cbn [then_].
  apply (for_each_prints
           (fun ix : nat * (string * pyval) =>
              v <- py_getitem_str (snd (snd ix)) "day" ;; as_text v)
           (fun ix day_text => Printed (date_choice (fst ix) (fst (snd ix)) day_text))).
  intros [i [date v]] Hin. apply in_combine_r in Hin. apply in_map_iff in Hin.
  destruct Hin as ([date' e] & Heq & _). inversion Heq; subst.
  exists (day e). reflexivity.
Qed.

Lemma shifts_listing (st : state) (refs : list loc) (out : list event) :
  exists printed,
    then_ (py_iter (PList (map PShift refs))) out (fun l =>
      for_each (enumerate l) (fun ix out =>
        then_ (shift_of (objects st) (snd ix)) out (fun s =>
          (Ret tt,
           out ++ [Printed (shift_choice (fst ix) s (employee_name_of st "UNASSIGNED" s))])))
        out) = (Ret tt, out ++ printed).
Proof.
  cbn [py_iter then_].
  apply (for_each_prints
           (fun ix : nat * pyval => shift_of (objects st) (snd ix))
           (fun ix s =>
              Printed (shift_choice (fst ix) s (employee_name_of st "UNASSIGNED" s)))).
  intros [i v] Hin. apply in_combine_r in Hin. apply in_map_iff in Hin.
  destruct Hin as (r & <- & _). now exists (objects st r).
Qed.

Lemma shifts_of_day (ds : list (string * DayEntry)) (date : string) (e : DayEntry) :
  dict_get ds date = Some e ->
  (day_data <- py_getitem_str (schedule_value ds) date ;;
   py_getitem_str day_data "shifts") = Ret (PList (map PShift (shifts e))).
Proof.
  intros He. unfold schedule_value, py_getitem_str at 1.
  rewrite (dict_get_map (fun e => day_dict (day e) (shifts e))), He. reflexivity.
Qed.

(** On a store that follows the annotations the command always comes back to
    the prompt: it ends by printing the message of [command_outcome] and
    leaves the state of [command_outcome]. *)
Lemma assign_shift_command_outcome
  (h : store) (emps : list Employee) (ds : list (string * DayEntry))
  (a1 a2 a3 : option Z) :
  exists printed,
    assign_shift_command (typed_state h emps ds) a1 a2 a3 =
    (Ret tt,
     printed ++ [Printed (fst (command_outcome h emps ds a1 a2 a3))],
     snd (command_outcome h emps ds a1 a2 a3)).
Proof.
  unfold assign_shift_command, command_outcome.
  destruct ds as [|kv0 ds0]; [exists []; reflexivity|].
  set (ds := kv0 :: ds0). set (st := typed_state h emps ds).
  assert (Ht : truthy (schedule st) = Ret true) by reflexivity.
  rewrite Ht. cbn [step negb].
  change (schedule st) with (schedule_value ds).
  destruct (dates_listing ds [Printed (concat_all [nl; "Available dates:"])]) as [p1 Hp1].
  rewrite Hp1. cbn [after_loop]. unfold selection.
  destruct a1 as [di|]; [|eexists; cbn [ask bind step except_invalid fst snd]; reflexivity].
  change (schedule st) with (schedule_value ds).
  cbn [ask bind py_keys schedule_value]. rewrite map_map. cbn [fst].
  change (map (fun x : string * DayEntry => fst x) ds) with (map fst ds).
  pose proof (seq_index_outcome (map fst ds) di) as Hdate.
  destruct (seq_index (map fst ds) di) as [date|e|];
    [| subst e; eexists; cbn [step except_invalid fst snd];
       destruct a2, a3; reflexivity | contradiction].
  cbn [step].
  destruct (dict_get_of_key ds date Hdate) as [e He].
  rewrite (shifts_of_day ds date e He). cbn [step].
  match goal with |- context [then_ (py_iter (PList (map PShift (shifts e)))) ?o _] =>
    destruct (shifts_listing st (shifts e) o) as [p2 Hp2] end.
  rewrite Hp2. cbn [after_loop].
  destruct a2 as [si|];
    [|eexists; cbn [ask step except_invalid fst snd]; destruct a3; reflexivity].
  cbn [ask step].
  destruct a3 as [ei|]; [|eexists; cbn [ask bind step except_invalid fst snd]; reflexivity].
  cbn [ask bind]. change (employees st) with emps.
  pose proof (seq_index_outcome emps ei) as Hemp.
  destruct (seq_index emps ei) as [emp|e'|];
    [| subst e'; eexists; cbn [bind step except_invalid fst snd]; reflexivity | contradiction].
  cbn [bind step].
  destruct (assign_typed_outcomes h emps ds date si (id emp)) as [[st' Ha]|[Ha|Ha]];
    fold st in Ha; rewrite Ha; eexists; cbn [except_invalid fst snd]; reflexivity.
Qed.

Lemma command_outcome_cases
  (h : store) (emps : list Employee) (ds : list (string * DayEntry))
  (a1 a2 a3 : option Z) :
  (fst (command_outcome h emps ds a1 a2 a3) = msg_successful \/
   (snd (command_outcome h emps ds a1 a2 a3) = typed_state h emps ds /\
    (fst (command_outcome h emps ds a1 a2 a3) = msg_failed \/
     fst (command_outcome h emps ds a1 a2 a3) = msg_invalid \/
     fst (command_outcome h emps ds a1 a2 a3) = msg_no_schedule))).
Proof.
  unfold command_outcome. destruct ds as [|kv0 ds0]; [right; auto|].
  destruct a1 as [di|], a2 as [si|], a3 as [ei|]; try (right; auto; fail).
  destruct (seq_index (map fst (kv0 :: ds0)) di) as [date| |]; try (right; auto; fail).
  destruct (seq_index emps ei) as [emp| |]; try (right; auto; fail).
  destruct (assign_typed_outcomes h emps (kv0 :: ds0) date si (id emp)) as [[st' Ha]|[Ha|Ha]];
    rewrite Ha; [left; reflexivity | right; auto | right; auto].
Qed.

(** X19. On a store that follows the annotations the [assign shift] command
    never lets an exception out: whatever the three answers are - numbers in
    or out of range, negative numbers, text that is no number - it ends by
    printing one of its four messages, and unless that message is
    "Assignment successful" the roster, the schedule and every shift are as
    before. *)
Theorem assign_shift_command_always_answers :
  forall (h : store) (emps : list Employee) (ds : list (string * DayEntry))
         (a1 a2 a3 : option Z),
    exists printed msg st',
      assign_shift_command (typed_state h emps ds) a1 a2 a3 =
        (Ret tt, printed ++ [Printed msg], st') /\
      (msg = msg_successful \/
       (st' = typed_state h emps ds /\
        (msg = msg_failed \/ msg = msg_invalid \/ msg = msg_no_schedule))).
Proof.
  intros h emps ds a1 a2 a3.
  destruct (assign_shift_command_outcome h emps ds a1 a2 a3) as [printed Hc].
  exists printed, (fst (command_outcome h emps ds a1 a2 a3)),
         (snd (command_outcome h emps ds a1 a2 a3)).
  split; [exact Hc | apply command_outcome_cases].
Qed.

Lemma seq_index_out_of_range {A : Type} (l : list A) (i : Z) :
  i < - Z.of_nat (List.length l) \/ Z.of_nat (List.length l) <= i ->
  seq_index l i = Raise IndexError.
Proof.
  intros H. unfold seq_index.
  destruct (i <? 0) eqn:Hneg.
  - apply Z.ltb_lt in Hneg.
    destruct (0 <=? i + Z.of_nat (List.length l)) eqn:H0; [|reflexivity].
    apply Z.leb_le in H0.
    destruct (i + Z.of_nat (List.length l) <? Z.of_nat (List.length l)) eqn:H1;
      [|reflexivity].
    lia.
  - apply Z.ltb_ge in Hneg.
    destruct (0 <=? i); [|reflexivity].
    destruct (i <? Z.of_nat (List.length l)) eqn:H1; [|reflexivity].
    apply Z.ltb_lt in H1. lia.
Qed.

(** X20. With a schedule in place, an answer that is no number, a date
    number outside [-n, n) for [n] dates, or an employee number outside
    [-m, m) for [m] employees makes the command print "Invalid selection" and
    change nothing. *)
Theorem assign_shift_command_rejects_bad_answers :
  forall (h : store) (emps : list Employee) (ds : list (string * DayEntry))
         (a1 a2 a3 : option Z),
    ds <> [] ->
    a1 = None \/ a2 = None \/ a3 = None \/
    (exists di, a1 = Some di /\
       (di < - Z.of_nat (List.length ds) \/ Z.of_nat (List.length ds) <= di)) \/
    (exists ei, a3 = Some ei /\
       (ei < - Z.of_nat (List.length emps) \/ Z.of_nat (List.length emps) <= ei)) ->
    exists printed,
      assign_shift_command (typed_state h emps ds) a1 a2 a3 =
        (Ret tt, printed ++ [Printed msg_invalid], typed_state h emps ds).
Proof.
  intros h emps ds a1 a2 a3 Hds Hbad.
  destruct (assign_shift_command_outcome h emps ds a1 a2 a3) as [printed Hc].
  exists printed. rewrite Hc.
  assert (Ho : command_outcome h emps ds a1 a2 a3 = (msg_invalid, typed_state h emps ds)).
  { unfold command_outcome. destruct ds as [|kv0 ds0]; [contradiction|].
    destruct Hbad as [-> | [-> | [-> | [(di & -> & Hdi) | (ei & -> & Hei)]]]].
    - reflexivity.
    - now destruct a1.
    - now destruct a1, a2.
    - destruct a2, a3; try reflexivity.
      rewrite seq_index_out_of_range; [reflexivity | now rewrite length_map].
    - destruct a1, a2; try reflexivity.
      rewrite (seq_index_out_of_range emps ei Hei).
      now destruct (seq_index (map fst (kv0 :: ds0)) z). }
  now rewrite Ho.
Qed.

Lemma assign_shift_command_rejects_witness :
  exists printed,
    assign_shift_command (typed_state ex_store [ex_employee] ex_days)
      (Some 0) (Some 0) (Some 1) =
      (Ret tt, printed ++ [Printed msg_invalid], typed_state ex_store [ex_employee] ex_days).
Proof.
  apply (assign_shift_command_rejects_bad_answers ex_store [ex_employee] ex_days
           (Some 0) (Some 0) (Some 1)).
  - discriminate.
  - right; right; right; right. exists 1. split; [reflexivity | right; simpl; lia].
Defined.

(** X21. When the date number and the employee number select a date and an
    employee - Python indexing: a negative number counts from the end - and
    the shift number is not negative, the command prints "Assignment
    successful" and performs the assignment exactly when the shift number is
    below the number of shifts of that day and the day's label is among the
    available days of the first employee of the roster with the selected
    employee's id; otherwise it prints "Assignment failed - employee may not
    be available on this day" and changes nothing. *)
Theorem assign_shift_command_assigns :
  forall (h : store) (emps : list Employee) (ds : list (string * DayEntry))
         (di si ei : Z) (date : string) (emp : Employee),
    seq_index (map fst ds) di = Ret date ->
    seq_index emps ei = Ret emp ->
    0 <= si ->
    exists printed,
      assign_shift_command (typed_state h emps ds) (Some di) (Some si) (Some ei) =
      if assignable emps ds date si (id emp)
      then (Ret tt, printed ++ [Printed msg_successful],
            snd (assign_employee_to_shift (typed_state h emps ds) date si (id emp)))
      else (Ret tt, printed ++ [Printed msg_failed], typed_state h emps ds).
Proof.
  intros h emps ds di si ei date emp Hdate Hemp Hsi.
  destruct (assign_shift_command_outcome h emps ds (Some di) (Some si) (Some ei))
    as [printed Hc].
  exists printed. rewrite Hc. unfold command_outcome.
  destruct ds as [|kv0 ds0].
  { rewrite seq_index_out_of_range in Hdate by (simpl; lia). discriminate. }
  rewrite Hdate, Hemp.
  pose proof (assign_nonnegative_index h emps (kv0 :: ds0) date si (id emp) Hsi) as Ha.
  destruct (assignable emps (kv0 :: ds0) date si (id emp)).
  - destruct Ha as (r & _ & Ha). rewrite Ha. reflexivity.
  - rewrite Ha. reflexivity.
Qed.

Lemma assign_shift_command_assigns_witness :
  exists printed,
    assign_shift_command (typed_state ex_store [ex_employee] ex_days)
      (Some (-1)) (Some 1) (Some 0) =
    if assignable [ex_employee] ex_days "2024-01-01" 1 (id ex_employee)
    then (Ret tt, printed ++ [Printed msg_successful],
          snd (assign_employee_to_shift (typed_state ex_store [ex_employee] ex_days)
                 "2024-01-01" 1 (id ex_employee)))
    else (Ret tt, printed ++ [Printed msg_failed],
          typed_state ex_store [ex_employee] ex_days).
Proof.
  apply (assign_shift_command_assigns ex_store [ex_employee] ex_days
           (-1) 1 0 "2024-01-01" ex_employee); [reflexivity | reflexivity | lia].
Defined.

(** What the user sees in that run. *)
Example assign_shift_command_example :
  snd (fst (assign_shift_command ex_assigned_state (Some 0) (Some 2) (Some 0))) =
    [Printed (concat_all [nl; "Available dates:"]);
     Printed "  0: 2024-01-01 (Monday)";
     Printed "  1: 2024-01-02 (Tuesday)";
     Prompted "Select date (number): ";
     Printed (concat_all [nl; "Shifts for 2024-01-01:"]);
     Printed "  0: 09:00-17:00 Manager (Ann)";
     Printed "  1: 09:00-17:00 Manager (E9)";
     Printed "  2: 09:00-17:00 Manager (UNASSIGNED)";
     Prompted "Select shift (number): ";
     Printed (concat_all [nl; "Available employees:"]);
     Printed "  0: Ann (E1)";
     Prompted "Select employee (number): ";
     Printed "Assignment successful"].
Proof. reflexivity. Qed.
